(** * WebGroupCW front end: the Pinia user store ([stores/userStore.ts])

    A shallow embedding of [getCookie] and of the actions of [useUserStore],
    with the properties of the store's specification stated and proved over
    it.

    Conventions of the model.
    - A JavaScript string is a [string]; [String.prototype.split] works on
      code units, which is how [split] below works on characters.
    - A JavaScript number is modelled where it is a safe integer (of
      magnitude below 2^53: page numbers, ages, hobby ids, HTTP status
      codes) and is a [Z].  Fractions and the numbers that JavaScript prints
      with an exponent (from 1e21 on) are outside the model; what is proved
      of printed digits is stated for safe integers.
    - TypeScript types are erased at run time: what [response.json()] gives
      is stored in the state as it is, so the state holds JavaScript values.
    - The actions are [async] functions.  Every [await] is a point where the
      action waits for the network; the model runs one action from its call
      to its completion, with nothing interleaved. *)

From Stdlib Require Import String Ascii List ZArith Bool Lia Arith.
From Stdlib Require Import Numbers.DecimalString Numbers.DecimalZ Numbers.DecimalPos.
From Equations Require Import Equations.
Import ListNotations.

Local Open Scope list_scope.
Local Open Scope string_scope.

(** ** Strings *)

Module Str.

(** [starts_with p s]: [s.startsWith(p)]. *)
Fixpoint starts_with (p s : string) : bool :=
  match p, s with
  | EmptyString, _ => true
  | String _ _, EmptyString => false
  | String a p', String b s' => if Ascii.eqb a b then starts_with p' s' else false
  end.

(** [drop n s]: [s.substring(n)]. *)
Fixpoint drop (n : nat) (s : string) : string :=
  match n, s with
  | O, _ => s
  | S _, EmptyString => EmptyString
  | S n', String _ s' => drop n' s'
  end.

(** [find_first sep s]: the text before and the text after the leftmost
    occurrence of [sep] in [s], when there is one.  This is the search that
    one round of the loop of [String.prototype.split] performs (the position
    [q] advances by one until [sep] matches at [q]). *)
Fixpoint find_first (sep s : string) : option (string * string) :=
  if starts_with sep s then Some (EmptyString, drop (String.length sep) s)
  else
    match s with
    | EmptyString => None
    | String c s' =>
        match find_first sep s' with
        | Some (before, rest) => Some (String c before, rest)
        | None => None
        end
    end.

(** [chars s]: [s.split(sep)] for the empty separator, one string per code unit. *)
Fixpoint chars (s : string) : list string :=
  match s with
  | EmptyString => []
  | String c s' => String c EmptyString :: chars s'
  end.

Definition inspect {A} (x : A) : {y : A | x = y} := exist _ x eq_refl.

(** [split_nonempty a p s]: [s.split(sep)] for the separator [sep] that
    starts with character [a] and goes on with [p] (so it is not the empty
    string): the pieces of [s] between the occurrences of [sep] found from
    left to right, each search starting where the previous occurrence
    ended. *)
Equations? split_nonempty (a : ascii) (p : string) (s : string)
  : list string by wf (String.length s) lt :=
  split_nonempty a p s with inspect (find_first (String a p) s) := {
    | exist _ (Some (before, rest)) _ => before :: split_nonempty a p rest
    | exist _ None _ => [s] }.
Proof.
  clear split_nonempty.
  match goal with H : find_first _ _ = _ |- _ => rename H into Hfound end.
  revert before rest Hfound.
  induction s as [|c s IH]; intros before rest Hfound.
  - simpl in Hfound. discriminate.
  - cbn [find_first] in Hfound.
    destruct (starts_with (String a p) (String c s)).
    + inversion Hfound; subst; clear Hfound.
      cbn [String.length drop].
      assert (Hdrop : forall n t, String.length (drop n t) <= String.length t).
      { clear. induction n as [|n IHn]; intros [|d t]; simpl; try lia.
        specialize (IHn t). lia. }
      specialize (Hdrop (String.length p) s). lia.
    + destruct (find_first (String a p) s) as [[b r]|]; [|discriminate].
      inversion Hfound; subst; clear Hfound.
      specialize (IH _ _ eq_refl). simpl. lia.
Qed.

(** [split sep s]: [s.split(sep)] with a string separator. *)
Definition split (sep s : string) : list string :=
  match sep with
  | EmptyString => chars s
  | String a p => split_nonempty a p s
  end.

(** [Array.prototype.pop] and [Array.prototype.shift], as far as their
    results go: the last and the first element, [None] standing for
    [undefined] on an empty array. *)
Fixpoint pop {A} (l : list A) : option A :=
  match l with
  | [] => None
  | [x] => Some x
  | _ :: l' => pop l'
  end.

Definition shift {A} (l : list A) : option A := hd_error l.

(** [Number.prototype.toString] on a safe integer: its decimal notation.
    (JavaScript goes over to exponent notation at 1e21, far above the safe
    integers.) *)
Definition number_toString (n : Z) : string :=
  NilZero.string_of_int (Z.to_int n).

End Str.

(** ** [getCookie]

    [document.cookie] is a global of the browser; it is an argument here.
    [None] is [null]. *)

Definition or_null (v : option string) : option string :=
  match v with
  | Some EmptyString => None
  | Some s => Some s
  | None => None
  end.

Definition getCookie (document_cookie name : string) : option string :=
  let value := "; " ++ document_cookie in
  let parts := Str.split ("; " ++ name ++ "=") value in
  if Nat.eqb (List.length parts) 2 then
    match Str.pop parts with
    | Some last_part => or_null (Str.shift (Str.split ";" last_part))
    | None => None
    end
  else None.

(** ** JavaScript values *)

Module JS.

#[warnings="-register-all"] Inductive JSValue : Type :=
| JUndefined
| JNull
| JBool (b : bool)
| JNum (n : Z)
| JStr (s : string)
| JArr (items : list JSValue)
| JObj (props : list (string * JSValue)).

(** An object is the list of its properties in insertion order. *)
Definition JSObject : Type := list (string * JSValue).

(** Exceptions and rejections that the store's code can meet. *)
Inductive JSError : Type :=
| Error_ (message : JSValue)   (* [new Error(message)], the argument as given *)
| TypeError_                   (* reading a property of null or undefined, calling what is no function *)
| FetchRejected                (* the promise of [fetch] rejected: no response *)
| JsonRejected.                (* the promise of [response.json()] rejected *)

Inductive Result (A : Type) : Type :=
| Ok (a : A)
| Throw (e : JSError).
Arguments Ok {A} a.
Arguments Throw {A} e.

(** [obj.k] on an object. *)
Fixpoint lookup (k : string) (props : JSObject) : JSValue :=
  match props with
  | [] => JUndefined
  | (k', v) :: rest => if String.eqb k k' then v else lookup k rest
  end.

(** [{...obj, k: v}]: [k] keeps its place when [obj] has it and comes last
    otherwise. *)
Fixpoint obj_set (k : string) (v : JSValue) (props : JSObject) : JSObject :=
  match props with
  | [] => [(k, v)]
  | (k', v') :: rest =>
      if String.eqb k k' then (k', v) :: rest else (k', v') :: obj_set k v rest
  end.

(** [v.k] for the property names the store reads ([id], [status], [errors],
    [hobby], [hobbies], [similar_users], [page], [total_pages]): a
    [TypeError] on [null] and [undefined], the property on an object, and
    [undefined] on a boolean, a number, a string or an array, none of which
    has a property of those names. *)
Definition get_prop (v : JSValue) (k : string) : Result JSValue :=
  match v with
  | JUndefined | JNull => Throw TypeError_
  | JObj props => Ok (lookup k props)
  | _ => Ok JUndefined
  end.

(** What [if (v)], [!v] and [v || w] test. *)
Definition truthy (v : JSValue) : bool :=
  match v with
  | JUndefined | JNull => false
  | JBool b => b
  | JNum n => negb (Z.eqb n 0)
  | JStr s => negb (String.eqb s EmptyString)
  | JArr _ | JObj _ => true
  end.

(** [JSON.stringify v], given as the document that the text denotes (what
    [JSON.parse] reads back): a property whose value is [undefined] is left
    out and an [undefined] array item is written [null]. *)
Fixpoint JSON_stringify (v : JSValue) : JSValue :=
  match v with
  | JArr items =>
      JArr (map (fun x => match x with
                          | JUndefined => JNull
                          | _ => JSON_stringify x
                          end) items)
  | JObj props =>
      JObj ((fix entries (ps : list (string * JSValue)) : list (string * JSValue) :=
               match ps with
               | [] => []
               | (k, x) :: ps' =>
                   match x with
                   | JUndefined => entries ps'
                   | _ => (k, JSON_stringify x) :: entries ps'
                   end
               end) props)
  | _ => v
  end.

End JS.
Import JS.

(** ** [URLSearchParams] *)

Module URLSearchParams.

Definition t : Type := list (string * string).

Definition append (name value : string) (q : t) : t := (q ++ [(name, value)])%list.

Definition hex_digit (n : nat) : ascii :=
  ascii_of_nat (if Nat.ltb n 10 then 48 + n else 55 + n).

(** The application/x-www-form-urlencoded byte serializer: letters, digits
    and [* - . _] stay, a space becomes [+], every other byte is
    percent-encoded. *)
Definition unreserved (c : ascii) : bool :=
  let n := nat_of_ascii c in
  (Nat.leb 48 n && Nat.leb n 57) || (Nat.leb 65 n && Nat.leb n 90) ||
  (Nat.leb 97 n && Nat.leb n 122) ||
  Nat.eqb n 42 || Nat.eqb n 45 || Nat.eqb n 46 || Nat.eqb n 95.

Fixpoint encode (s : string) : string :=
  match s with
  | EmptyString => EmptyString
  | String c s' =>
      if unreserved c then String c (encode s')
      else if Ascii.eqb c " " then String "+" (encode s')
      else
        let n := nat_of_ascii c in
        String "%" (String (hex_digit (n / 16)) (String (hex_digit (n mod 16)) (encode s')))
  end.

(** [q.toString()]. *)
Fixpoint toString (q : t) : string :=
  match q with
  | [] => EmptyString
  | [(k, v)] => encode k ++ "=" ++ encode v
  | (k, v) :: q' => encode k ++ "=" ++ encode v ++ "&" ++ toString q'
  end.

End URLSearchParams.

(** ** Data contracts ([interfaces.ts]) *)

Record Hobby : Type := {
  id : Z;
  name : string;
  created_at : string;
  created_by : option string
}.

(** A [Hobby] as a JavaScript object. *)
Definition Hobby_value (h : Hobby) : JSValue :=
  JObj [("id", JNum (id h));
        ("name", JStr (name h));
        ("created_at", JStr (created_at h));
        ("created_by", match created_by h with Some u => JStr u | None => JNull end)].

(** An item of the [hobbies] list given to [updateProfile]: a raw id or a
    [Hobby] object. *)
Inductive HobbyRef : Type :=
| RawId (n : Z)
| HobbyObject (h : Hobby).

Definition HobbyRef_value (r : HobbyRef) : JSValue :=
  match r with
  | RawId n => JNum n
  | HobbyObject h => Hobby_value h
  end.

Definition HobbyRef_id (r : HobbyRef) : Z :=
  match r with
  | RawId n => n
  | HobbyObject h => id h
  end.

(** Modelled from the spec: [FilterParams] is imported from [interfaces.ts],
    which does not declare it in the files at hand.  The specification gives
    it as a page number plus optional minimum and maximum age bounds, and
    [fetchPage] fills it from parameters of type [number | null]; a bound is
    therefore a number (an integer, or [NaN]), [null], or left out
    ([undefined]). *)
Inductive AgeBound : Type :=
| AgeUndefined
| AgeNull
| AgeNaN
| AgeNum (n : Z).

Record FilterParams : Type := {
  page : Z;
  minAge : AgeBound;
  maxAge : AgeBound
}.

(** [if (bound)]: a number other than 0 and [NaN]. *)
Definition bound_truthy (b : AgeBound) : bool :=
  match b with
  | AgeNum n => negb (Z.eqb n 0)
  | _ => false
  end.

(** [bound.toString()], read only where the bound is truthy. *)
Definition bound_toString (b : AgeBound) : string :=
  match b with
  | AgeNum n => Str.number_toString n
  | AgeNaN => "NaN"
  | _ => EmptyString
  end.

(** ** HTTP *)

Inductive Method : Type := GET | POST | PUT.

Record Request : Type := {
  url : string;
  method : Method;
  credentials_include : bool;
  headers : list (string * string);
  body : option JSValue          (* the document of [JSON.stringify(...)] *)
}.

Record Response : Type := {
  status : Z;
  json_body : option JSValue     (* what [response.json()] resolves to; [None] when it rejects *)
}.

(** [response.ok]: the status is in the range 200-299. *)
Definition ok (r : Response) : bool :=
  (200 <=? status r)%Z && (status r <=? 299)%Z.

Inductive FetchOutcome : Type :=
| Resolved (r : Response)
| Rejected.

(** What an action does that is seen from outside. *)
Inductive Event : Type :=
| Fetched (req : Request) (out : FetchOutcome)     (* [fetch(...)] and how it settled *)
| Navigated (to : string)                          (* [window.location.assign(to)] *)
| ConsoleError (label : string) (thrown : option JSError).  (* [console.error(label, error)] *)

Definition is_fetch (e : Event) : bool :=
  match e with Fetched _ _ => true | _ => false end.

(** The requests the store sends. *)
Definition get_request (u : string) : Request :=
  {| url := u; method := GET; credentials_include := true; headers := []; body := None |}.

Definition json_request (m : Method) (u csrfToken : string) (payload : JSValue) : Request :=
  {| url := u; method := m; credentials_include := true;
     headers := [("Content-Type", "application/json"); ("X-CSRFToken", csrfToken)];
     body := Some (JSON_stringify payload) |}.

(** ** The state of the store *)

Record UserState : Type := {
  userData : JSValue;
  similarUsers : JSValue;
  currentPage : JSValue;
  totalPages : JSValue;
  hobbies : JSValue
}.

Definition initial_state : UserState :=
  {| userData := JNull;
     similarUsers := JArr [];
     currentPage := JNum 1;
     totalPages := JNum 1;
     hobbies := JArr [] |}.

Definition with_userData (v : JSValue) (s : UserState) : UserState :=
  {| userData := v; similarUsers := similarUsers s; currentPage := currentPage s;
     totalPages := totalPages s; hobbies := hobbies s |}.

Definition with_similarUsers (v : JSValue) (s : UserState) : UserState :=
  {| userData := userData s; similarUsers := v; currentPage := currentPage s;
     totalPages := totalPages s; hobbies := hobbies s |}.

Definition with_currentPage (v : JSValue) (s : UserState) : UserState :=
  {| userData := userData s; similarUsers := similarUsers s; currentPage := v;
     totalPages := totalPages s; hobbies := hobbies s |}.

Definition with_totalPages (v : JSValue) (s : UserState) : UserState :=
  {| userData := userData s; similarUsers := similarUsers s; currentPage := currentPage s;
     totalPages := v; hobbies := hobbies s |}.

Definition with_hobbies (v : JSValue) (s : UserState) : UserState :=
  {| userData := userData s; similarUsers := similarUsers s; currentPage := currentPage s;
     totalPages := totalPages s; hobbies := v |}.

(** What an action returns: [{ success, error?, hobby? }]. *)
Inductive ErrorField : Type :=
| ErrValue (v : JSValue)       (* a string literal or [data.errors] *)
| ErrThrown (e : JSError).     (* the caught exception *)

Record ActionResult : Type := {
  success : bool;
  error : option ErrorField;
  hobby : option JSValue
}.

Definition succeeded : ActionResult :=
  {| success := true; error := None; hobby := None |}.

Definition succeeded_with_hobby (h : JSValue) : ActionResult :=
  {| success := true; error := None; hobby := Some h |}.

Definition failed (e : ErrorField) : ActionResult :=
  {| success := false; error := Some e; hobby := None |}.

Definition csrf_missing : ActionResult :=
  failed (ErrValue (JStr "CSRF token not found")).

(** [typeof hobby === 'number' ? hobby : hobby.id] *)
Definition hobby_id (hobby : JSValue) : Result JSValue :=
  match hobby with
  | JNum _ => Ok hobby
  | _ => get_prop hobby "id"
  end.

(** [items.map(f)] for an [f] that may throw: the first exception ends the
    loop. *)
Fixpoint array_map (f : JSValue -> Result JSValue) (items : list JSValue)
  : Result (list JSValue) :=
  match items with
  | [] => Ok []
  | x :: rest =>
      match f x with
      | Throw e => Throw e
      | Ok y =>
          match array_map f rest with
          | Throw e => Throw e
          | Ok ys => Ok (y :: ys)
          end
      end
  end.

(** [hobbies?.map(hobby => ...)]: [undefined] when [hobbies] is [null] or
    [undefined], the mapped array when it is an array, and a [TypeError]
    otherwise ([hobbies.map] is then no function). *)
Definition format_hobbies (hs : JSValue) : Result JSValue :=
  match hs with
  | JUndefined | JNull => Ok JUndefined
  | JArr items =>
      match array_map hobby_id items with
      | Ok ids => Ok (JArr ids)
      | Throw e => Throw e
      end
  | _ => Throw TypeError_
  end.

(** [data.status === 'success'] *)
Definition is_success (st : JSValue) : bool :=
  match st with
  | JStr s => String.eqb s "success"
  | _ => false
  end.

(** The query and the URL that [fetchSimilarUsers] builds. *)
Definition similar_users_query (params : FilterParams) : URLSearchParams.t :=
  let q0 : URLSearchParams.t := [] in
  let q1 := URLSearchParams.append "page" (Str.number_toString (page params)) q0 in
  let q2 := if bound_truthy (minAge params)
            then URLSearchParams.append "min_age" (bound_toString (minAge params)) q1
            else q1 in
  if bound_truthy (maxAge params)
  then URLSearchParams.append "max_age" (bound_toString (maxAge params)) q2
  else q2.

Definition similar_users_url (params : FilterParams) : string :=
  "/api/users/similar_with_filters/?" ++ URLSearchParams.toString (similar_users_query params).

(** ** The actions *)

Section Store.

(** The server is a collaborator outside the store: any function from its
    own state and a request to an outcome and its next state. *)
Context {ServerState : Type}.
Variable server : ServerState -> Request -> FetchOutcome * ServerState.

Record World : Type := {
  store : UserState;
  document_cookie : string;
  server_state : ServerState;
  log : list Event
}.

(** Computations of the store: they read and change the world, and return
    or throw.  What was done before a [throw] stays done. *)
Definition M (A : Type) : Type := World -> Result A * World.

Definition ret {A} (a : A) : M A := fun w => (Ok a, w).

Definition throw {A} (e : JSError) : M A := fun w => (Throw e, w).

Definition bind {A B} (m : M A) (k : A -> M B) : M B :=
  fun w =>
    match m w with
    | (Ok a, w') => k a w'
    | (Throw e, w') => (Throw e, w')
    end.

Definition try_catch {A} (m : M A) (handler : JSError -> M A) : M A :=
  fun w =>
    match m w with
    | (Ok a, w') => (Ok a, w')
    | (Throw e, w') => handler e w'
    end.

Definition lift {A} (r : Result A) : M A := fun w => (r, w).

Local Notation "x <- m ;; k" := (bind m (fun x => k))
  (at level 61, m at next level, right associativity).
Local Notation "m ;;; k" := (bind m (fun _ => k))
  (at level 61, right associativity).

Definition emit (e : Event) : M unit :=
  fun w => (Ok tt, {| store := store w; document_cookie := document_cookie w;
                      server_state := server_state w; log := (log w ++ [e])%list |}).

Definition modify (f : UserState -> UserState) : M unit :=
  fun w => (Ok tt, {| store := f (store w); document_cookie := document_cookie w;
                      server_state := server_state w; log := log w |}).

Definition console_error (label : string) (thrown : option JSError) : M unit :=
  emit (ConsoleError label thrown).

Definition location_assign (to : string) : M unit := emit (Navigated to).

Definition read_cookie (name : string) : M (option string) :=
  fun w => (Ok (getCookie (document_cookie w) name), w).

(** [await fetch(...)]: the server answers, the exchange is logged, and a
    rejected promise is an exception at the [await]. *)
Definition fetch (req : Request) : M Response :=
  fun w =>
    let (out, st') := server (server_state w) req in
    let w' := {| store := store w; document_cookie := document_cookie w;
                 server_state := st'; log := (log w ++ [Fetched req out])%list |} in
    match out with
    | Resolved r => (Ok r, w')
    | Rejected => (Throw FetchRejected, w')
    end.

(** [await response.json()] *)
Definition json (r : Response) : M JSValue :=
  match json_body r with
  | Some v => ret v
  | None => throw JsonRejected
  end.

Definition fetchUserProfile : M unit :=
  try_catch
    (response <- fetch (get_request "/api/profile/") ;;
     if negb (ok response) then
       if (status response =? 403)%Z || (status response =? 401)%Z then
         location_assign "/login/"
       else throw (Error_ (JStr "Network response was not ok"))
     else
       data <- json response ;;
       modify (with_userData data))
    (fun error =>
       console_error "Error fetching profile:" (Some error) ;;;
       location_assign "/login/").

Definition fetchHobbies : M unit :=
  try_catch
    (response <- fetch (get_request "/api/hobbies/") ;;
     if negb (ok response) then throw (Error_ (JStr "Failed to fetch hobbies"))
     else
       data <- json response ;;
       hs <- lift (get_prop data "hobbies") ;;
       modify (with_hobbies hs))
    (fun error => console_error "Error fetching hobbies:" (Some error)).

Definition updateProfile (updatedData : JSObject) : M ActionResult :=
  try_catch
    (csrfToken <- read_cookie "csrftoken" ;;
     match csrfToken with
     | None | Some EmptyString =>
         console_error "CSRF token not found." None ;;;
         ret csrf_missing
     | Some token =>
         ids <- lift (format_hobbies (lookup "hobbies" updatedData)) ;;
         let formattedData := JObj (obj_set "hobbies" ids updatedData) in
         response <- fetch (json_request PUT "/api/profile/" token formattedData) ;;
         if negb (ok response) then
           errorData <- json response ;;
           errors <- lift (get_prop errorData "errors") ;;
           throw (Error_ (if truthy errors then errors
                          else JStr "Failed to update profile"))
         else
           fetchUserProfile ;;;
           ret succeeded
     end)
    (fun error =>
       console_error "Error updating profile:" (Some error) ;;;
       ret (failed (ErrThrown error))).

Definition addHobby (hobbyName : string) : M ActionResult :=
  try_catch
    (csrfToken <- read_cookie "csrftoken" ;;
     match csrfToken with
     | None | Some EmptyString =>
         console_error "CSRF token not found." None ;;;
         ret csrf_missing
     | Some token =>
         response <- fetch (json_request POST "/api/hobbies/" token
                              (JObj [("name", JStr hobbyName)])) ;;
         if negb (ok response) then throw (Error_ (JStr "Failed to add hobby"))
         else
           data <- json response ;;
           st <- lift (get_prop data "status") ;;
           if is_success st then
             fetchHobbies ;;;
             h <- lift (get_prop data "hobby") ;;
             ret (succeeded_with_hobby h)
           else
             errors <- lift (get_prop data "errors") ;;
             ret (failed (ErrValue errors))
     end)
    (fun error =>
       console_error "Error adding hobby:" (Some error) ;;;
       ret (failed (ErrThrown error))).

(** [addExistingHobbyToProfile] and [deleteHobbyFromProfile] are the same
    code but for the URL, the error message and the label of the log. *)
Definition post_hobby_id (endpoint failure_message label : string) (hobbyId : Z)
  : M ActionResult :=
  try_catch
    (csrfToken <- read_cookie "csrftoken" ;;
     match csrfToken with
     | None | Some EmptyString =>
         console_error "CSRF token not found." None ;;;
         ret csrf_missing
     | Some token =>
         response <- fetch (json_request POST endpoint token
                              (JObj [("hobby_id", JNum hobbyId)])) ;;
         if negb (ok response) then throw (Error_ (JStr failure_message))
         else
           data <- json response ;;
           st <- lift (get_prop data "status") ;;
           if is_success st then
             fetchUserProfile ;;;
             ret succeeded
           else
             errors <- lift (get_prop data "errors") ;;
             ret (failed (ErrValue errors))
     end)
    (fun error =>
       console_error label (Some error) ;;;
       ret (failed (ErrThrown error))).

Definition addExistingHobbyToProfile (hobbyId : Z) : M ActionResult :=
  post_hobby_id "/api/profile/add_hobby" "Failed to add hobby to profile"
                "Error adding hobby to profile:" hobbyId.

Definition deleteHobbyFromProfile (hobbyId : Z) : M ActionResult :=
  post_hobby_id "/api/profile/delete_hobby" "Failed to delete hobby from profile"
                "Error deleting hobby from profile:" hobbyId.

Definition fetchSimilarUsers (params : FilterParams) : M unit :=
  try_catch
    (response <- fetch (get_request (similar_users_url params)) ;;
     if negb (ok response) then throw (Error_ (JStr "Failed to fetch users"))
     else
       data <- json response ;;
       users <- lift (get_prop data "similar_users") ;;
       modify (with_similarUsers users) ;;;
       pg <- lift (get_prop data "page") ;;
       modify (with_currentPage pg) ;;;
       total <- lift (get_prop data "total_pages") ;;
       modify (with_totalPages total))
    (fun error => console_error "Error fetching similar users:" (Some error)).

Definition fetchPage (page : Z) (minAge maxAge : AgeBound) : M unit :=
  fetchSimilarUsers {| page := page; minAge := minAge; maxAge := maxAge |}.

Definition sendFriendRequest (username : string) : M ActionResult :=
  try_catch
    (csrfToken <- read_cookie "csrftoken" ;;
     match csrfToken with
     | None | Some EmptyString =>
         console_error "CSRF token not found." None ;;;
         ret csrf_missing
     | Some token =>
         response <- fetch (json_request POST "/api/send_request/" token
                              (JObj [("username", JStr username)])) ;;
         if negb (ok response) then throw (Error_ (JStr "Failed to send friend request"))
         else ret succeeded
     end)
    (fun error =>
       console_error "Error sending friend request:" (Some error) ;;;
       ret (failed (ErrThrown error))).

End Store.

(** ** Occurrences of a delimiter in a string *)

(** [occurs_at sep s i]: [sep] occurs in [s] at position [i]. *)
Definition occurs_at (sep s : string) (i : nat) : Prop :=
  exists before rest : string, s = before ++ sep ++ rest /\ String.length before = i.

Definition occurs (sep s : string) : Prop := exists i, occurs_at sep s i.

(** [occurrences sep s]: at how many positions of [s] the string [sep]
    occurs, overlapping occurrences included. *)
Fixpoint occurrences (sep s : string) : nat :=
  (if Str.starts_with sep s then 1 else 0) +
  match s with
  | EmptyString => 0
  | String _ s' => occurrences sep s'
  end.

(** The text of [s] up to its first [;], all of [s] when it has none. *)
Fixpoint until_semicolon (s : string) : string :=
  match s with
  | EmptyString => EmptyString
  | String c s' => if Ascii.eqb c ";" then EmptyString else String c (until_semicolon s')
  end.

(** The delimiter that [getCookie] splits at, and the string it splits. *)
Definition delimiter (name : string) : string := "; " ++ name ++ "=".

Definition cookie_text (document_cookie : string) : string := "; " ++ document_cookie.

(** [single_match sep s rest]: [sep] occurs in [s], [rest] is what follows
    its leftmost occurrence, and [sep] does not occur again in [rest]. *)
Definition single_match (sep s rest : string) : Prop :=
  exists before : string,
    s = before ++ sep ++ rest /\
    (forall i, occurs_at sep s i -> String.length before <= i) /\
    ~ occurs sep rest.

(** The cookie [name] is absent: its delimiter occurs nowhere. *)
Definition cookie_absent (name document_cookie : string) : Prop :=
  ~ occurs (delimiter name) (cookie_text document_cookie).

Fixpoint no_semicolon (s : string) : bool :=
  match s with
  | EmptyString => true
  | String c s' => negb (Ascii.eqb c ";") && no_semicolon s'
  end.

(** ** Observations on a run *)

(** [logged es w]: the world [w] after the events [es] and nothing else. *)
Definition logged {ServerState : Type} (es : list Event) (w : @World ServerState)
  : @World ServerState :=
  {| store := store w; document_cookie := document_cookie w;
     server_state := server_state w; log := (log w ++ es)%list |}.

(** [answered st es w]: the world [w] after the events [es], the server
    having moved to state [st]; the store is as it was. *)
Definition answered {ServerState : Type} (st : ServerState) (es : list Event)
  (w : @World ServerState) : @World ServerState :=
  {| store := store w; document_cookie := document_cookie w;
     server_state := st; log := (log w ++ es)%list |}.

(** The network calls among some events. *)
Definition network_calls (es : list Event) : list Event := filter is_fetch es.

(** The properties of the document sent for an object. *)
Definition json_entries (props : JSObject) : JSObject :=
  match JSON_stringify (JObj props) with
  | JObj entries => entries
  | _ => []
  end.

(** How a fetch fails: no response, a response outside 200-299, or a body
    that is no JSON. *)
Inductive fetch_failure : FetchOutcome -> Prop :=
| transport_failure : fetch_failure Rejected
| status_failure (r : Response) : ok r = false -> fetch_failure (Resolved r)
| json_failure (r : Response) : json_body r = None -> fetch_failure (Resolved r).

(** The document that a [GET /api/profile/] brought, if it brought one. *)
Definition profile_document (out : FetchOutcome) : option JSValue :=
  match out with
  | Resolved r => if ok r then json_body r else None
  | Rejected => None
  end.

(** C9 as it is worded, at one cookie string and name. *)
Definition getCookie_once_claim (document_cookie name : string) : Prop :=
  getCookie document_cookie name <> None ->
  occurrences (delimiter name) (cookie_text document_cookie) = 1.

(** C1 as it is worded, at one server, world and update: a call that
    returns [{success: true}] has fetched a document from
    [GET /api/profile/], and [userData] is that document. *)
Definition refetch_claim {ServerState : Type}
  (server : ServerState -> Request -> FetchOutcome * ServerState)
  (w : @World ServerState) (updatedData : JSObject) : Prop :=
  forall w', updateProfile server updatedData w = (Ok succeeded, w') ->
  exists out d,
    In (Fetched (get_request "/api/profile/") out) (log w') /\
    profile_document out = Some d /\
    userData (store w') = d.

(** ** Servers and worlds of the examples *)

Definition json_ok (v : JSValue) : Response :=
  {| status := 200; json_body := Some v |}.

Definition json_status (code : Z) (v : JSValue) : Response :=
  {| status := code; json_body := Some v |}.

Definition ann : JSValue :=
  JObj [("username", JStr "ann"); ("email", JStr "ann@example.org");
        ("first_name", JStr "Ann"); ("last_name", JStr "Lee");
        ("hobbies", JArr [])].

Definition ann_renamed : JSValue :=
  JObj [("username", JStr "ann"); ("email", JStr "ann@example.org");
        ("first_name", JStr "Anna"); ("last_name", JStr "Lee");
        ("hobbies", JArr [])].

(** A world with the given cookie string and profile, nothing logged. *)
Definition world_with (cookie : string) (profile : JSValue) : @World unit :=
  {| store := with_userData profile initial_state;
     document_cookie := cookie;
     server_state := tt;
     log := [] |}.

(** A server that stores what is put and serves the renamed profile. *)
Definition healthy_server (st : unit) (req : Request) : FetchOutcome * unit :=
  match method req with
  | PUT => (Resolved (json_ok (JObj [])), st)
  | GET => (Resolved (json_ok ann_renamed), st)
  | POST => (Resolved (json_ok (JObj [("status", JStr "success")])), st)
  end.

(** A server whose session has expired for reading: the update is accepted
    and the profile is refused with 401. *)
Definition expired_server (st : unit) (req : Request) : FetchOutcome * unit :=
  match method req with
  | PUT => (Resolved (json_ok (JObj [])), st)
  | _ => (Resolved (json_status 401 (JObj [("detail", JStr "Not authenticated")])), st)
  end.

Definition refusal : JSValue :=
  JObj [("status", JStr "error"); ("errors", JStr "Hobby already exists")].

(** A server that refuses every hobby operation in the application's own
    terms: HTTP 200 with a [status] other than ['success']. *)
Definition refusing_server (st : unit) (req : Request) : FetchOutcome * unit :=
  (Resolved (json_ok refusal), st).

(** A server that is down. *)
Definition down_server (st : unit) (req : Request) : FetchOutcome * unit :=
  (Rejected, st).

(** A page of similar users. *)
Definition page_two (users : JSValue) : JSValue :=
  JObj [("similar_users", users); ("page", JNum 2); ("total_pages", JNum 5)].

Definition paging_server (st : unit) (req : Request) : FetchOutcome * unit :=
  (Resolved (json_ok (page_two (JArr [JObj [("username", JStr "bob")]]))), st).

Definition chess : Hobby :=
  {| id := 7; name := "Chess"; created_at := "2024-11-02"; created_by := Some "ann" |}.

(** The browser of a signed-in user, and of one whose cookies hold no
    [csrftoken]. *)
Definition signed_in : @World unit := world_with "sessionid=xyz; csrftoken=tok" ann.

Definition no_token : @World unit := world_with "sessionid=xyz" ann.

Definition rename : JSObject := [("first_name", JStr "Anna")].

Definition mixed_hobbies : list HobbyRef := [RawId 3; HobbyObject chess; RawId 5].

Definition rename_with_hobbies : JSObject :=
  [("first_name", JStr "Anna"); ("hobbies", JArr (map HobbyRef_value mixed_hobbies))].

Definition page_two_params : FilterParams :=
  {| page := 2; minAge := AgeNum 18; maxAge := AgeNum 30 |}.

(** ** The store as its pages use it *)

(** One invocation of an action of the store. *)
Inductive Call : Type :=
| FetchUserProfile
| UpdateProfile (updatedData : JSObject)
| AddHobby (hobbyName : string)
| AddExistingHobbyToProfile (hobbyId : Z)
| DeleteHobbyFromProfile (hobbyId : Z)
| FetchHobbies
| FetchSimilarUsers (params : FilterParams)
| FetchPage (page : Z) (minAge maxAge : AgeBound)
| SendFriendRequest (username : string).

Section Calls.

Context {ServerState : Type}.
Variable server : ServerState -> Request -> FetchOutcome * ServerState.

(** The promise of an action resolves to [undefined] ([None]) or to its
    result object. *)
Definition resolves_undefined (m : @M ServerState unit) : M (option ActionResult) :=
  bind m (fun _ => ret None).

Definition resolves_result (m : @M ServerState ActionResult) : M (option ActionResult) :=
  bind m (fun r => ret (Some r)).

Definition call (c : Call) : M (option ActionResult) :=
  match c with
  | FetchUserProfile => resolves_undefined (fetchUserProfile server)
  | UpdateProfile updatedData => resolves_result (updateProfile server updatedData)
  | AddHobby hobbyName => resolves_result (addHobby server hobbyName)
  | AddExistingHobbyToProfile hobbyId =>
      resolves_result (addExistingHobbyToProfile server hobbyId)
  | DeleteHobbyFromProfile hobbyId =>
      resolves_result (deleteHobbyFromProfile server hobbyId)
  | FetchHobbies => resolves_undefined (fetchHobbies server)
  | FetchSimilarUsers params => resolves_undefined (fetchSimilarUsers server params)
  | FetchPage page minAge maxAge => resolves_undefined (fetchPage server page minAge maxAge)
  | SendFriendRequest username => resolves_result (sendFriendRequest server username)
  end.

End Calls.

(** The requests of the remote API, for a browser whose cookie string is
    [cookie]: the reads, and the writes with the token of the cookie. *)
Inductive api_request (cookie : string) : Request -> Prop :=
| api_get_profile :
    api_request cookie (get_request "/api/profile/")
| api_get_hobbies :
    api_request cookie (get_request "/api/hobbies/")
| api_get_similar_users (params : FilterParams) :
    api_request cookie (get_request (similar_users_url params))
| api_put_profile (token : string) (data : JSObject) :
    getCookie cookie "csrftoken" = Some token ->
    api_request cookie (json_request PUT "/api/profile/" token (JObj data))
| api_post_hobby (token hobbyName : string) :
    getCookie cookie "csrftoken" = Some token ->
    api_request cookie
      (json_request POST "/api/hobbies/" token (JObj [("name", JStr hobbyName)]))
| api_post_add_hobby (token : string) (hobbyId : Z) :
    getCookie cookie "csrftoken" = Some token ->
    api_request cookie
      (json_request POST "/api/profile/add_hobby" token (JObj [("hobby_id", JNum hobbyId)]))
| api_post_delete_hobby (token : string) (hobbyId : Z) :
    getCookie cookie "csrftoken" = Some token ->
    api_request cookie
      (json_request POST "/api/profile/delete_hobby" token (JObj [("hobby_id", JNum hobbyId)]))
| api_post_send_request (token username : string) :
    getCookie cookie "csrftoken" = Some token ->
    api_request cookie
      (json_request POST "/api/send_request/" token (JObj [("username", JStr username)])).

Definition api_event (cookie : string) (e : Event) : Prop :=
  match e with
  | Fetched req _ => api_request cookie req
  | _ => True
  end.

(** How a call may change the state: which fields it can write. *)
Definition writes_userData (s s' : UserState) : Prop :=
  similarUsers s' = similarUsers s /\ currentPage s' = currentPage s /\
  totalPages s' = totalPages s /\ hobbies s' = hobbies s.

Definition writes_hobbies (s s' : UserState) : Prop :=
  userData s' = userData s /\ similarUsers s' = similarUsers s /\
  currentPage s' = currentPage s /\ totalPages s' = totalPages s.

Definition writes_page (s s' : UserState) : Prop :=
  userData s' = userData s /\ hobbies s' = hobbies s.

Definition writes_nothing (s s' : UserState) : Prop := s' = s.

Definition may_write (c : Call) : UserState -> UserState -> Prop :=
  match c with
  | FetchUserProfile | UpdateProfile _
  | AddExistingHobbyToProfile _ | DeleteHobbyFromProfile _ => writes_userData
  | FetchHobbies | AddHobby _ => writes_hobbies
  | FetchSimilarUsers _ | FetchPage _ _ _ => writes_page
  | SendFriendRequest _ => writes_nothing
  end.

(** [footprint allowed change cookie m]: from a world whose cookie string is
    [cookie], the computation [m] leaves the cookie string alone, changes
    the state within [change] and logs events of [allowed] only. *)
Definition footprint {ServerState A : Type}
  (allowed : Event -> Prop) (change : UserState -> UserState -> Prop)
  (cookie : string) (m : @M ServerState A) : Prop :=
  forall w, document_cookie w = cookie ->
    document_cookie (snd (m w)) = cookie /\
    change (store w) (store (snd (m w))) /\
    exists es, log (snd (m w)) = (log w ++ es)%list /\ Forall allowed es.

Definition is_navigation (e : Event) : bool :=
  match e with Navigated _ => true | _ => false end.

(** The hobbies that [updateProfile] can format: no list at all, or an
    array without [null] and [undefined] items. *)
Definition nullish (v : JSValue) : bool :=
  match v with
  | JUndefined | JNull => true
  | _ => false
  end.

Definition hobbies_formattable (hs : JSValue) : bool :=
  match hs with
  | JUndefined | JNull => true
  | JArr items => forallb (fun x => negb (nullish x)) items
  | _ => false
  end.

(** What is sent for one item of the hobbies: a number as it is, the [id]
    of an object, and [null] where [hobby.id] is [undefined]. *)
Definition sent_hobby (hobby : JSValue) : JSValue :=
  match hobby with
  | JNum n => JNum n
  | JObj props =>
      match lookup "id" props with
      | JUndefined => JNull
      | v => JSON_stringify v
      end
  | _ => JNull
  end.

(** ** Cookie strings *)

(** [document.cookie] for a jar of cookies: [name=value] pairs joined by
    ["; "]. *)
Fixpoint cookie_string (jar : list (string * string)) : string :=
  match jar with
  | [] => EmptyString
  | [(k, v)] => k ++ "=" ++ v
  | (k, v) :: rest => k ++ "=" ++ v ++ "; " ++ cookie_string rest
  end.

Fixpoint no_equals (s : string) : bool :=
  match s with
  | EmptyString => true
  | String c s' => negb (Ascii.eqb c "=") && no_equals s'
  end.

Fixpoint distinct (names : list string) : bool :=
  match names with
  | [] => true
  | n :: rest => negb (existsb (String.eqb n) rest) && distinct rest
  end.

(** A jar as browsers keep it: names without [;] and [=], values without
    [;], no name twice. *)
Definition jar_ok (jar : list (string * string)) : bool :=
  forallb (fun kv => no_semicolon (fst kv) && no_equals (fst kv) && no_semicolon (snd kv)) jar
  && distinct (map fst jar).

(** What a read brought: the property [k] of the body of a 2xx response,
    when the body is JSON and not [null]. *)
Definition fetched_property (k : string) (out : FetchOutcome) : option JSValue :=
  match out with
  | Resolved r =>
      if ok r then
        match json_body r with
        | Some data =>
            match get_prop data k with
            | Ok v => Some v
            | Throw _ => None
            end
        | None => None
        end
      else None
  | Rejected => None
  end.

(** The page that a read of similar users brought. *)
Definition fetched_page (out : FetchOutcome) : option (JSValue * JSValue * JSValue) :=
  match fetched_property "similar_users" out,
        fetched_property "page" out,
        fetched_property "total_pages" out with
  | Some users, Some pg, Some total => Some (users, pg, total)
  | _, _, _ => None
  end.

(** The cookie string with a separator before every pair, as [getCookie]
    reads it once it has put ["; "] in front. *)
Fixpoint jar_text (jar : list (string * string)) : string :=
  match jar with
  | [] => EmptyString
  | (k, v) :: rest => "; " ++ k ++ "=" ++ v ++ jar_text rest
  end.

Definition fields_ok (kv : string * string) : bool :=
  no_semicolon (fst kv) && no_equals (fst kv) && no_semicolon (snd kv).

Definition count_name (name : string) (jar : list (string * string)) : nat :=
  List.length (filter (fun kv => String.eqb name (fst kv)) jar).

(** ** More servers and inputs of the examples *)

(** A server that refuses every write with 400 and a reason. *)
Definition invalid : JSValue := JObj [("errors", JStr "Invalid email")].

Definition validating_server (st : unit) (req : Request) : FetchOutcome * unit :=
  (Resolved (json_status 400 invalid), st).

(** A server that creates the hobby and then lists it. *)
Definition created : JSValue :=
  JObj [("status", JStr "success"); ("hobby", Hobby_value chess)].

Definition hobby_list : JSValue := JObj [("hobbies", JArr [Hobby_value chess])].

Definition hobby_server (st : unit) (req : Request) : FetchOutcome * unit :=
  match method req with
  | GET => (Resolved (json_ok hobby_list), st)
  | _ => (Resolved (json_ok created), st)
  end.

Definition hobbies_with_null : JSObject := [("hobbies", JArr [JNum 1; JNull])].

Definition loose_hobbies : list JSValue :=
  [JNum 3; Hobby_value chess; JObj [("name", JStr "Go")]; JStr "7"].

Definition rename_with_loose_hobbies : JSObject :=
  [("first_name", JStr "Anna"); ("hobbies", JArr loose_hobbies)].

Definition browser_jar : list (string * string) :=
  [("sessionid", "xyz"); ("xcsrftoken", "no"); ("csrftoken", "tok"); ("theme", EmptyString)].

(** Writes and reads among the events of the log. *)
Definition is_write (e : Event) : bool :=
  match e with
  | Fetched req _ => match method req with GET => false | _ => true end
  | _ => false
  end.

Definition is_read (e : Event) : bool :=
  match e with
  | Fetched req _ => match method req with GET => true | _ => false end
  | _ => false
  end.

(** [sends writes reads m]: the computation [m] only adds to the log, at
    most [writes] PUT or POST requests and at most [reads] GET requests. *)
Definition sends {ServerState A : Type} (writes reads : nat) (m : @M ServerState A) : Prop :=
  forall w, exists es,
    log (snd (m w)) = (log w ++ es)%list /\
    List.length (filter is_write es) <= writes /\
    List.length (filter is_read es) <= reads.

(** How many writes and reads a call may send. *)
Definition request_budget (c : Call) : nat * nat :=
  match c with
  | FetchUserProfile | FetchHobbies | FetchSimilarUsers _ | FetchPage _ _ _ => (0, 1)
  | SendFriendRequest _ => (1, 0)
  | _ => (1, 1)
  end.

(** ** Plain statements of what is sent and returned *)

(** [has_field props k v]: the object with properties [props] has the
    property [k], with value [v]. *)
Definition has_field (props : JSObject) (k : string) (v : JSValue) : Prop :=
  exists before after,
    props = (before ++ (k, v) :: after)%list /\ ~ In k (map fst before).

(** The safe integers of JavaScript. *)
Definition safe_integer (n : Z) : Prop :=
  (- 9007199254740991 <= n <= 9007199254740991)%Z.

(** The integer that a string of decimal digits, with an optional minus
    sign, denotes. *)
Definition decimal_value (s : string) : option Z :=
  option_map Z.of_int (NilZero.int_of_string s).

(** [avoids a s]: the character [a] does not occur in [s]. *)
Fixpoint avoids (a : ascii) (s : string) : bool :=
  match s with
  | EmptyString => true
  | String c s' => negb (Ascii.eqb a c) && avoids a s'
  end.

(** How often a bound makes its parameter appear in the query: once for a
    number other than 0, never for 0, [NaN], [null] and [undefined]. *)
Definition times_sent (b : AgeBound) : nat :=
  match b with
  | AgeNum n => if (n =? 0)%Z then 0 else 1
  | _ => 0
  end.

(** A result object as the writes return it: [{success: true, ...}] without
    an error, or [{success: false, error}] without a hobby. *)
Definition result_object (res : ActionResult) : Prop :=
  (success res = true /\ error res = None) \/
  (success res = false /\ hobby res = None /\ exists e, error res = Some e).

(** [returns P m]: whenever [m] returns, what it returns is in [P]. *)
Definition returns {ServerState A : Type} (P : A -> Prop) (m : @M ServerState A) : Prop :=
  forall w a, fst (m w) = Ok a -> P a.

(** [fulfils P m]: [m] never throws, and what it returns is in [P]. *)
Definition fulfils {ServerState A : Type} (P : A -> Prop) (m : @M ServerState A) : Prop :=
  forall w, exists a, fst (m w) = Ok a /\ P a.

(** * Properties *)

(** ** Strings and [split] *)

Lemma append_assoc (a b c : string) : (a ++ b) ++ c = a ++ (b ++ c).
Proof. induction a as [|x a IH]; simpl; [reflexivity | now rewrite IH]. Qed.

Lemma append_nil_r (a : string) : a ++ EmptyString = a.
Proof. induction a as [|x a IH]; simpl; [reflexivity | now rewrite IH]. Qed.

Lemma append_length (a b : string) :
  String.length (a ++ b) = String.length a + String.length b.
Proof. induction a as [|x a IH]; simpl; [reflexivity | now rewrite IH]. Qed.

Lemma append_inj_length (a a' b b' : string) :
  String.length a = String.length a' -> a ++ b = a' ++ b' -> a = a' /\ b = b'.
Proof.
  revert a'. induction a as [|x a IH]; intros [|x' a'] Hlen H; simpl in *;
    try discriminate; [auto|].
  inversion H; subst. destruct (IH a') as [-> ->]; auto.
Qed.

Lemma starts_with_append (p r : string) : Str.starts_with p (p ++ r) = true.
Proof.
  induction p as [|x p IH]; simpl; [reflexivity|].
  now rewrite Ascii.eqb_refl.
Qed.

Lemma drop_append (p r : string) : Str.drop (String.length p) (p ++ r) = r.
Proof. induction p as [|x p IH]; simpl; [now destruct r | exact IH]. Qed.

Lemma starts_with_split (p s : string) :
  Str.starts_with p s = true -> s = p ++ Str.drop (String.length p) s.
Proof.
  revert s. induction p as [|x p IH]; intros s H; simpl in *.
  - now destruct s.
  - destruct s as [|y s]; [discriminate|].
    destruct (Ascii.eqb_spec x y) as [->|]; [|discriminate].
    f_equal. now apply IH.
Qed.

Lemma starts_with_iff (p s : string) :
  Str.starts_with p s = true <-> exists r, s = p ++ r.
Proof.
  split.
  - intros H. eexists. now apply starts_with_split.
  - intros [r ->]. apply starts_with_append.
Qed.

Lemma occurs_at_0 (sep s : string) :
  occurs_at sep s 0 <-> Str.starts_with sep s = true.
Proof.
  rewrite starts_with_iff. split.
  - intros (b & r & -> & Hb). destruct b; [|discriminate]. now exists r.
  - intros [r ->]. exists EmptyString, r. auto.
Qed.

Lemma occurs_at_S (sep : string) (c : ascii) (s : string) (i : nat) :
  occurs_at sep (String c s) (S i) <-> occurs_at sep s i.
Proof.
  split.
  - intros (b & r & E & Hb). destruct b as [|x b]; [discriminate|].
    simpl in E, Hb. inversion E; subst. exists b, r. auto.
  - intros (b & r & -> & Hb). exists (String c b), r. simpl. auto.
Qed.

(** [find_first] finds an occurrence, and the leftmost one. *)
Lemma find_first_some (sep s before rest : string) :
  Str.find_first sep s = Some (before, rest) ->
  s = before ++ sep ++ rest /\
  (forall i, occurs_at sep s i -> String.length before <= i).
Proof.
  revert before rest. induction s as [|c s IH]; intros before rest H.
  - cbn [Str.find_first] in H.
    destruct (Str.starts_with sep EmptyString) eqn:E; [|discriminate].
    inversion H; subst; clear H. split; [|simpl; lia].
    simpl. now apply starts_with_split.
  - cbn [Str.find_first] in H.
    destruct (Str.starts_with sep (String c s)) eqn:E.
    + inversion H; subst; clear H. split; [|simpl; lia].
      simpl. now apply starts_with_split.
    + destruct (Str.find_first sep s) as [[b r]|] eqn:F; [|discriminate].
      inversion H; subst; clear H.
      destruct (IH _ _ eq_refl) as [-> Hleft]. split; [reflexivity|].
      intros [|i] Hi.
      * apply occurs_at_0 in Hi. congruence.
      * apply occurs_at_S in Hi. apply Hleft in Hi. simpl. lia.
Qed.

Lemma find_first_none (sep s : string) :
  Str.find_first sep s = None <-> ~ occurs sep s.
Proof.
  split.
  - induction s as [|c s IH]; intros H [i Hi]; cbn [Str.find_first] in H.
    + destruct (Str.starts_with sep EmptyString) eqn:E; [discriminate|].
      destruct Hi as (b & r & Hs & _).
      destruct b; [|discriminate]. simpl in Hs.
      assert (Str.starts_with sep EmptyString = true) by (apply starts_with_iff; eauto).
      congruence.
    + destruct (Str.starts_with sep (String c s)) eqn:E; [discriminate|].
      destruct (Str.find_first sep s) as [[b r]|] eqn:F; [discriminate|].
      destruct i as [|i].
      * apply occurs_at_0 in Hi. congruence.
      * apply occurs_at_S in Hi. apply IH; [reflexivity | now exists i].
  - intros H. destruct (Str.find_first sep s) as [[b r]|] eqn:F; [|reflexivity].
    exfalso. apply H. apply find_first_some in F. destruct F as [-> _].
    exists (String.length b), b, r. auto.
Qed.

Lemma find_first_leftmost (sep s before rest : string) :
  s = before ++ sep ++ rest ->
  (forall i, occurs_at sep s i -> String.length before <= i) ->
  Str.find_first sep s = Some (before, rest).
Proof.
  intros Hs Hleft.
  destruct (Str.find_first sep s) as [[b r]|] eqn:F.
  - destruct (find_first_some _ _ _ _ F) as [Hs' Hleft'].
    assert (Hlen : String.length b = String.length before).
    { apply Nat.le_antisymm.
      - apply Hleft'. exists before, rest. auto.
      - apply Hleft. exists b, r. auto. }
    rewrite Hs in Hs'. symmetry in Hlen.
    destruct (append_inj_length _ _ _ _ Hlen Hs') as [-> Hr].
    assert (Hlen2 : String.length sep = String.length sep) by reflexivity.
    destruct (append_inj_length _ _ _ _ Hlen2 Hr) as [_ ->]. reflexivity.
  - apply find_first_none in F. exfalso. apply F.
    exists (String.length before), before, rest. auto.
Qed.

Lemma split_nonempty_eq (a : ascii) (p s : string) :
  Str.split_nonempty a p s =
  match Str.find_first (String a p) s with
  | Some (before, rest) => before :: Str.split_nonempty a p rest
  | None => [s]
  end.
Proof.
  funelim (Str.split_nonempty a p s);
    match goal with E : Str.find_first _ _ = _ |- _ => rewrite E end; reflexivity.
Qed.

(** [split] gives two parts exactly when the separator is found once and
    not again after that occurrence; the second part is what follows it. *)
Lemma split_two_parts (a : ascii) (p s : string) :
  List.length (Str.split (String a p) s) = 2 <->
  exists before rest,
    Str.find_first (String a p) s = Some (before, rest) /\
    Str.find_first (String a p) rest = None.
Proof.
  unfold Str.split. rewrite split_nonempty_eq.
  destruct (Str.find_first (String a p) s) as [[b r]|] eqn:F.
  - rewrite split_nonempty_eq.
    destruct (Str.find_first (String a p) r) as [[b' r']|] eqn:F'.
    + split.
      * rewrite (split_nonempty_eq a p r').
        destruct (Str.find_first (String a p) r') as [[? ?]|]; simpl; discriminate.
      * intros (b0 & r0 & E & E0). inversion E; subst. congruence.
    + split; [|reflexivity]. intros _. exists b, r. auto.
  - split; [simpl; discriminate|]. intros (b0 & r0 & E & _). discriminate.
Qed.

Lemma split_two_parts_pop (a : ascii) (p s before rest : string) :
  Str.find_first (String a p) s = Some (before, rest) ->
  Str.find_first (String a p) rest = None ->
  Str.pop (Str.split (String a p) s) = Some rest.
Proof.
  intros F F'. unfold Str.split.
  rewrite split_nonempty_eq, F, split_nonempty_eq, F'. reflexivity.
Qed.

Lemma shift_split_semicolon (s : string) :
  Str.shift (Str.split ";" s) = Some (until_semicolon s).
Proof.
  unfold Str.split. rewrite split_nonempty_eq.
  assert (H : match Str.find_first ";" s with
              | Some (b, _) => b = until_semicolon s
              | None => s = until_semicolon s
              end).
  { induction s as [|c s IH]; [reflexivity|].
    cbn [Str.find_first Str.starts_with until_semicolon].
    rewrite (Ascii.eqb_sym c). destruct (Ascii.eqb ";" c); [reflexivity|].
    destruct (Str.find_first ";" s) as [[b r]|]; now f_equal. }
  destruct (Str.find_first ";" s) as [[b r]|]; simpl; now f_equal.
Qed.

(** ** [getCookie] *)

Lemma delimiter_cons (name : string) :
  delimiter name = String ";" (String " " (name ++ "=")).
Proof. reflexivity. Qed.

Lemma or_null_some (o : option string) (v : string) :
  or_null o = Some v <-> o = Some v /\ v <> EmptyString.
Proof.
  destruct o as [[|c s]|]; simpl; split; try discriminate.
  - intros [E H]. inversion E; subst. congruence.
  - intros E. inversion E; subst. split; [reflexivity | discriminate].
  - intros [E _]. exact E.
  - intros [E _]. discriminate.
Qed.

(** [getCookie] gives a value exactly when the delimiter is matched once by
    [split], and the value is the non-empty text up to the next [;]. *)
Lemma getCookie_some_iff (cookie name v : string) :
  getCookie cookie name = Some v <->
  exists rest,
    single_match (delimiter name) (cookie_text cookie) rest /\
    v = until_semicolon rest /\ v <> EmptyString.
Proof.
  unfold getCookie. fold (delimiter name). fold (cookie_text cookie).
  rewrite delimiter_cons.
  set (a := ";"%char). set (p := String " " (name ++ "=")).
  set (s := cookie_text cookie).
  destruct (Nat.eqb_spec (List.length (Str.split (String a p) s)) 2) as [L|L].
  - apply split_two_parts in L. destruct L as (b & r & F & F').
    rewrite (split_two_parts_pop _ _ _ _ _ F F'), shift_split_semicolon, or_null_some.
    destruct (find_first_some _ _ _ _ F) as [Hs Hleft].
    apply find_first_none in F'.
    split.
    + intros [E Hv]. inversion E; subst v. exists r. repeat split; auto.
      exists b. auto.
    + intros (rest & (b0 & Hs0 & Hleft0 & Hno) & -> & Hv).
      pose proof (find_first_leftmost _ _ _ _ Hs0 Hleft0) as F0.
      rewrite F in F0. inversion F0; subst. auto.
  - split; [discriminate|].
    intros (rest & (b0 & Hs0 & Hleft0 & Hno) & _ & _). exfalso. apply L.
    apply split_two_parts. exists b0, rest. split.
    + now apply find_first_leftmost.
    + now apply find_first_none.
Qed.

Lemma getCookie_never_empty (cookie name : string) :
  getCookie cookie name <> Some EmptyString.
Proof.
  intros H. apply getCookie_some_iff in H.
  destruct H as (_ & _ & _ & H). now apply H.
Qed.

Lemma getCookie_absent (cookie name : string) :
  cookie_absent name cookie -> getCookie cookie name = None.
Proof.
  intros H. destruct (getCookie cookie name) as [v|] eqn:E; [|reflexivity].
  apply getCookie_some_iff in E. destruct E as (rest & (b & Hs & _) & _).
  exfalso. apply H. exists (String.length b), b, rest. auto.
Qed.

(** *** Counting occurrences *)

Lemma occurs_at_empty (sep : string) (i : nat) : occurs_at sep EmptyString i -> i = 0.
Proof.
  intros (b & r & E & Hb). destruct b; [now subst | discriminate].
Qed.

Lemma occurrences_zero (sep s : string) :
  occurrences sep s = 0 <-> ~ occurs sep s.
Proof.
  induction s as [|c s IH]; cbn [occurrences].
  - destruct (Str.starts_with sep EmptyString) eqn:E; split; try discriminate; try reflexivity.
    + intros H. exfalso. apply H. exists 0. now apply occurs_at_0.
    + intros _ [i Hi]. pose proof (occurs_at_empty _ _ Hi); subst.
      apply occurs_at_0 in Hi. congruence.
  - destruct (Str.starts_with sep (String c s)) eqn:E; split; try discriminate.
    + intros H. exfalso. apply H. exists 0. now apply occurs_at_0.
    + simpl. intros H [[|i] Hi].
      * apply occurs_at_0 in Hi. congruence.
      * apply occurs_at_S in Hi. apply IH in H. apply H. now exists i.
    + simpl. intros H. apply IH. intros [i Hi]. apply H. exists (S i).
      now apply occurs_at_S.
Qed.

Lemma occurrences_one_unique (sep s : string) (i j : nat) :
  occurrences sep s = 1 -> occurs_at sep s i -> occurs_at sep s j -> i = j.
Proof.
  revert i j. induction s as [|c s IH]; intros i j H Hi Hj.
  - apply occurs_at_empty in Hi, Hj. congruence.
  - cbn [occurrences] in H.
    destruct (Str.starts_with sep (String c s)) eqn:E.
    + assert (Hz : ~ occurs sep s) by (apply occurrences_zero; lia).
      destruct i as [|i]; destruct j as [|j]; try reflexivity; exfalso; apply Hz.
      * exists j. now apply occurs_at_S in Hj.
      * exists i. now apply occurs_at_S in Hi.
      * exists i. now apply occurs_at_S in Hi.
    + destruct i as [|i]; [apply occurs_at_0 in Hi; congruence|].
      destruct j as [|j]; [apply occurs_at_0 in Hj; congruence|].
      apply occurs_at_S in Hi, Hj. f_equal. apply IH; auto.
Qed.

Lemma occurrences_before (sep before tail : string) :
  (forall i, occurs_at sep (before ++ tail) i -> String.length before <= i) ->
  occurrences sep (before ++ tail) = occurrences sep tail.
Proof.
  induction before as [|c b IH]; intros Hleft; [reflexivity|].
  cbn [append occurrences].
  destruct (Str.starts_with sep (String c (b ++ tail))) eqn:E.
  - apply occurs_at_0 in E. apply Hleft in E. simpl in E. lia.
  - simpl. apply IH. intros i Hi.
    assert (H : occurs_at sep (String c b ++ tail) (S i)) by (simpl; now apply occurs_at_S).
    apply Hleft in H. simpl in H. lia.
Qed.

Lemma occurrences_skip (t u r : string) :
  no_semicolon u = true ->
  occurrences (String ";" t) (u ++ r) = occurrences (String ";" t) r.
Proof.
  induction u as [|c u IH]; intros H; [reflexivity|].
  simpl in H. apply andb_true_iff in H. destruct H as [Hc Hu].
  cbn [append occurrences Str.starts_with].
  destruct (Ascii.eqb_spec ";" c) as [<-|_]; [discriminate|].
  simpl. now apply IH.
Qed.

Lemma no_semicolon_append (a b : string) :
  no_semicolon (a ++ b) = no_semicolon a && no_semicolon b.
Proof.
  induction a as [|c a IH]; simpl; [reflexivity|].
  now rewrite IH, andb_assoc.
Qed.

(** For a name without [;] the delimiter cannot overlap itself, and one
    match of [split] is the same as one occurrence. *)
Lemma single_match_occurrences (name s rest : string) :
  no_semicolon name = true ->
  single_match (delimiter name) s rest <->
  occurrences (delimiter name) s = 1 /\
  exists before, s = before ++ delimiter name ++ rest.
Proof.
  intros Hname. split.
  - intros (before & Hs & Hleft & Hno). split; [|now exists before].
    rewrite Hs in Hleft |- *. rewrite (occurrences_before _ _ _ Hleft).
    rewrite delimiter_cons.
    change (String ";" (String " " (name ++ "=")) ++ rest)
      with (String ";" ((String " " (name ++ "=")) ++ rest)).
    cbn [occurrences]. rewrite <- delimiter_cons at 1.
    change (String ";" (String " " (name ++ "=") ++ rest))
      with (delimiter name ++ rest) at 1.
    rewrite starts_with_append.
    rewrite occurrences_skip.
    + rewrite <- delimiter_cons. apply occurrences_zero in Hno. lia.
    + simpl. rewrite no_semicolon_append, Hname. reflexivity.
  - intros [Hone [before Hs]]. exists before. split; [exact Hs|]. split.
    + intros i Hi.
      assert (Hb : occurs_at (delimiter name) s (String.length before))
        by (exists before, rest; auto).
      rewrite (occurrences_one_unique _ _ _ _ Hone Hi Hb). lia.
    + intros [k (b & r & Hr & Hk)].
      assert (Hb : occurs_at (delimiter name) s (String.length before))
        by (exists before, rest; auto).
      assert (Hk' : occurs_at (delimiter name) s
                      (String.length (before ++ delimiter name ++ b))).
      { exists (before ++ delimiter name ++ b), r. split; [|reflexivity].
        rewrite Hs, Hr. now rewrite !append_assoc. }
      pose proof (occurrences_one_unique _ _ _ _ Hone Hb Hk') as E.
      rewrite !append_length in E. rewrite delimiter_cons in E. simpl in E. lia.
Qed.

(** C9, as amended.  [getCookie(name)] returns a non-null value [v] exactly
    when the delimiter ["; " + name + "="] occurs in ["; " + document.cookie],
    does not occur again in the text after its leftmost occurrence, and [v]
    is the non-empty text that follows that occurrence up to the next [;];
    otherwise it returns null.  For a name that contains no [;] this is the
    same as the delimiter occurring at exactly one position. *)
Theorem getCookie_value (cookie name v : string) :
  (getCookie cookie name = Some v <->
   exists rest,
     single_match (delimiter name) (cookie_text cookie) rest /\
     v = until_semicolon rest /\ v <> EmptyString) /\
  (no_semicolon name = true ->
   (getCookie cookie name = Some v <->
    occurrences (delimiter name) (cookie_text cookie) = 1 /\
    exists before rest,
      cookie_text cookie = before ++ delimiter name ++ rest /\
      v = until_semicolon rest /\ v <> EmptyString)).
Proof.
  split; [apply getCookie_some_iff|].
  intros Hname. rewrite getCookie_some_iff. split.
  - intros (rest & Hm & Hv & Hne).
    apply (single_match_occurrences _ _ _ Hname) in Hm.
    destruct Hm as [Hone [before Hs]]. split; [exact Hone|].
    exists before, rest. auto.
  - intros (Hone & before & rest & Hs & Hv & Hne). exists rest.
    split; [|auto]. apply (single_match_occurrences _ _ _ Hname).
    split; [exact Hone | now exists before].
Qed.

Lemma getCookie_value_witness :
  no_semicolon "csrftoken" = true /\
  occurrences (delimiter "csrftoken")
    (cookie_text "sessionid=xyz; csrftoken=abc123; theme=dark") = 1 /\
  exists before rest,
    cookie_text "sessionid=xyz; csrftoken=abc123; theme=dark"
      = before ++ delimiter "csrftoken" ++ rest /\
    "abc123" = until_semicolon rest /\ "abc123" <> EmptyString.
Proof.
  split; [reflexivity|].
  apply (proj2 (getCookie_value "sessionid=xyz; csrftoken=abc123; theme=dark"
                                "csrftoken" "abc123")); reflexivity.
Defined.

Example getCookie_overlap :
  getCookie "a=b; a=b; a=" "a=b; a" = Some "b" /\
  occurrences (delimiter "a=b; a") (cookie_text "a=b; a=b; a=") = 2.
Proof. split; reflexivity. Qed.

(** C9 as it is worded fails for a name whose delimiter overlaps itself:
    ["; a=b; a="] occurs at positions 0 and 5 of ["; a=b; a=b; a="], yet
    [split] matches it once and [getCookie] returns ["b"]. *)
Lemma getCookie_overlap_counterexample :
  ~ getCookie_once_claim "a=b; a=b; a=" "a=b; a".
Proof.
  unfold getCookie_once_claim. intros H.
  assert (E : getCookie "a=b; a=b; a=" "a=b; a" <> None) by (cbv; discriminate).
  apply H in E. cbv in E. discriminate.
Qed.

(** ** The actions of the store *)

Section Properties.

Context {ServerState : Type}.
Variable server : ServerState -> Request -> FetchOutcome * ServerState.

Local Abbreviation World := (@World ServerState).

(** Both sides are run to the end and the logs compared up to the
    bracketing of their appends. *)
Ltac same_world :=
  cbn;
  unfold answered, logged, console_error, location_assign, emit, modify,
    ret, throw, lift;
  cbn; rewrite <- ?app_assoc; cbn; reflexivity.

Lemma fetch_resolved (w : World) (req : Request) (r : Response) (st' : ServerState) :
  server (server_state w) req = (Resolved r, st') ->
  fetch server req w = (Ok r, answered st' [Fetched req (Resolved r)] w).
Proof. intros H. unfold fetch. rewrite H. reflexivity. Qed.

Lemma fetch_rejected (w : World) (req : Request) (st' : ServerState) :
  server (server_state w) req = (Rejected, st') ->
  fetch server req w = (Throw FetchRejected, answered st' [Fetched req Rejected] w).
Proof. intros H. unfold fetch. rewrite H. reflexivity. Qed.

Lemma read_cookie_absent (w : World) :
  cookie_absent "csrftoken" (document_cookie w) ->
  read_cookie "csrftoken" w = (Ok None, w).
Proof. intros H. unfold read_cookie. now rewrite (getCookie_absent _ _ H). Qed.

(** C2.  When the cookie [csrftoken] is absent, every mutating action
    returns [{success: false, error: 'CSRF token not found'}] and leaves
    the world as it was but for one line on the console: the store and the
    server are untouched and nothing is fetched. *)
Theorem csrf_absent_short_circuit (w : World) :
  cookie_absent "csrftoken" (document_cookie w) ->
  let result := {| success := false;
                   error := Some (ErrValue (JStr "CSRF token not found"));
                   hobby := None |} in
  let w' := {| store := store w;
               document_cookie := document_cookie w;
               server_state := server_state w;
               log := (log w ++ [ConsoleError "CSRF token not found." None])%list |} in
  (forall updatedData, updateProfile server updatedData w = (Ok result, w')) /\
  (forall hobbyName, addHobby server hobbyName w = (Ok result, w')) /\
  (forall hobbyId, addExistingHobbyToProfile server hobbyId w = (Ok result, w')) /\
  (forall hobbyId, deleteHobbyFromProfile server hobbyId w = (Ok result, w')) /\
  (forall username, sendFriendRequest server username w = (Ok result, w')) /\
  (forall req out, ~ In (Fetched req out) [ConsoleError "CSRF token not found." None]).
Proof.
  intros H result w'.
  pose proof (read_cookie_absent w H) as R.
  repeat split; intros;
    try (unfold updateProfile, addHobby, addExistingHobbyToProfile,
           deleteHobbyFromProfile, post_hobby_id, sendFriendRequest, try_catch, bind;
         rewrite R; reflexivity).
  intros [E|[]]. discriminate.
Qed.

(** C3.  A [fetchUserProfile] whose response has status 401 or 403 sends
    the browser to ['/login/'] and changes no field of the state. *)
Theorem fetchUserProfile_unauthorized
  (w : World) (r : Response) (st' : ServerState) :
  server (server_state w) (get_request "/api/profile/") = (Resolved r, st') ->
  status r = 401%Z \/ status r = 403%Z ->
  fetchUserProfile server w =
    (Ok tt, answered st' [Fetched (get_request "/api/profile/") (Resolved r);
                          Navigated "/login/"] w) /\
  store (snd (fetchUserProfile server w)) = store w.
Proof.
  intros H Hst.
  assert (E : fetchUserProfile server w =
    (Ok tt, answered st' [Fetched (get_request "/api/profile/") (Resolved r);
                          Navigated "/login/"] w)).
  { unfold fetchUserProfile, try_catch, bind.
    rewrite (fetch_resolved _ _ _ _ H).
    unfold ok. destruct Hst as [-> | ->]; same_world. }
  rewrite E. split; reflexivity.
Qed.

Lemma is_success_false (st : JSValue) :
  st <> JStr "success" -> is_success st = false.
Proof.
  intros H. destruct st; try reflexivity. simpl.
  destruct (String.eqb_spec s "success"); [subst; congruence | reflexivity].
Qed.

(** Whatever the server does, [fetchSimilarUsers] makes one network call,
    a GET of the URL built from its parameters, and returns. *)
Lemma fetchSimilarUsers_one_request (params : FilterParams) (w : World) :
  exists out rest,
    fst (fetchSimilarUsers server params w) = Ok tt /\
    log (snd (fetchSimilarUsers server params w)) =
      (log w ++ Fetched (get_request (similar_users_url params)) out :: rest)%list /\
    network_calls rest = [].
Proof.
  unfold fetchSimilarUsers, try_catch, bind, fetch.
  destruct (server (server_state w) (get_request (similar_users_url params)))
    as [[r|] st'].
  - exists (Resolved r). destruct (ok r); cbn.
    + unfold json. destruct (json_body r) as [data|]; cbn.
      * destruct data; cbn;
          first [ exists []; repeat split; same_world
                | eexists [_]; repeat split; same_world ].
      * eexists [_]; repeat split; same_world.
    + eexists [_]; repeat split; same_world.
  - exists Rejected. eexists [_]; repeat split; same_world.
Qed.

Lemma status_2xx_ok (r : Response) :
  (200 <= status r <= 299)%Z -> ok r = true.
Proof.
  intros [Hlo Hhi]. unfold ok.
  apply andb_true_iff. split; now apply Z.leb_le.
Qed.

Lemma network_calls_none (es : list Event) :
  network_calls es = [] -> forall req out, ~ In (Fetched req out) es.
Proof.
  intros H req out Hin.
  assert (Hf : In (Fetched req out) (network_calls es))
    by (apply filter_In; split; [exact Hin | reflexivity]).
  rewrite H in Hf. exact Hf.
Qed.

(** C6.  [fetchSimilarUsers({page: 2, minAge: 18, maxAge: 30})] makes one
    network call, a GET of
    ['/api/users/similar_with_filters/?page=2&min_age=18&max_age=30'], and
    on a 2xx response with body [{similar_users: S, page: 2, total_pages: 5}]
    it sets [similarUsers] to [S], [currentPage] to 2 and [totalPages] to 5. *)
Theorem fetchSimilarUsers_page_two
  (w : World) (r : Response) (st' : ServerState) (users : JSValue) :
  let params := {| page := 2; minAge := AgeNum 18; maxAge := AgeNum 30 |} in
  let req := {| url := "/api/users/similar_with_filters/?page=2&min_age=18&max_age=30";
                method := GET;
                credentials_include := true;
                headers := [];
                body := None |} in
  (exists out rest,
     log (snd (fetchSimilarUsers server params w)) = (log w ++ Fetched req out :: rest)%list /\
     forall req' out', ~ In (Fetched req' out') rest) /\
  (server (server_state w) req = (Resolved r, st') ->
   (200 <= status r <= 299)%Z ->
   json_body r = Some (JObj [("similar_users", users); ("page", JNum 2);
                             ("total_pages", JNum 5)]) ->
   fetchSimilarUsers server params w =
     (Ok tt, {| store := {| userData := userData (store w);
                            similarUsers := users;
                            currentPage := JNum 2;
                            totalPages := JNum 5;
                            hobbies := hobbies (store w) |};
                document_cookie := document_cookie w;
                server_state := st';
                log := (log w ++ [Fetched req (Resolved r)])%list |})).
Proof.
  intros params req. split.
  - destruct (fetchSimilarUsers_one_request params w) as (out & rest & _ & H & H').
    exists out, rest. split; [exact H | now apply network_calls_none].
  - intros H Hst Hbody. apply status_2xx_ok in Hst.
    unfold fetchSimilarUsers, try_catch, bind.
    change (get_request (similar_users_url params)) with req.
    rewrite (fetch_resolved _ _ _ _ H), Hst. cbn.
    unfold json. rewrite Hbody. reflexivity.
Qed.

(** C7.  A [fetchHobbies] or a [fetchSimilarUsers] whose fetch fails (no
    response, a status outside 200-299, a body that is no JSON) leaves every
    field of the state as it was; the error goes to the console. *)
Theorem failed_fetch_leaves_state
  (w : World) (out : FetchOutcome) (st' : ServerState) :
  fetch_failure out ->
  (server (server_state w) (get_request "/api/hobbies/") = (out, st') ->
   exists e,
     fetchHobbies server w =
       (Ok tt, answered st' [Fetched (get_request "/api/hobbies/") out;
                             ConsoleError "Error fetching hobbies:" (Some e)] w)) /\
  (forall params,
     server (server_state w) (get_request (similar_users_url params)) = (out, st') ->
     exists e,
       fetchSimilarUsers server params w =
         (Ok tt, answered st' [Fetched (get_request (similar_users_url params)) out;
                               ConsoleError "Error fetching similar users:" (Some e)] w)) /\
  (forall es, store (answered st' es w) = store w).
Proof.
  intros Hfail. split; [|split; [|reflexivity]]; intros;
    unfold fetchHobbies, fetchSimilarUsers, try_catch, bind, fetch;
    match goal with H : server _ _ = _ |- _ => rewrite H end;
    destruct Hfail as [ | r Hr | r Hr ].
  1,4: eexists; same_world.
  1,3: rewrite Hr; eexists; same_world.
  all: destruct (ok r); cbn; unfold json; rewrite ?Hr; eexists; same_world.
Qed.

(** C8.  [fetchPage(p, lo, hi)] is [fetchSimilarUsers({page: p, minAge: lo,
    maxAge: hi})]: from every world and against every server the two runs
    end with the same result in the same world (same request, same state,
    same log). *)
Theorem fetchPage_is_fetchSimilarUsers
  (p : Z) (lo hi : AgeBound) (w : World) :
  fetchPage server p lo hi w =
  fetchSimilarUsers server {| page := p; minAge := lo; maxAge := hi |} w.
Proof. reflexivity. Qed.

Lemma read_cookie_token (w : World) (token : string) :
  getCookie (document_cookie w) "csrftoken" = Some token ->
  read_cookie "csrftoken" w = (Ok (Some token), w) /\
  exists c rest, token = String c rest.
Proof.
  intros H. unfold read_cookie. rewrite H. split; [reflexivity|].
  destruct token as [|c rest]; [|eauto].
  exfalso. exact (getCookie_never_empty _ _ H).
Qed.

Lemma lookup_has_field (props : JSObject) (k : string) (v : JSValue) :
  has_field props k v -> lookup k props = v.
Proof.
  intros (before & after & -> & Hnot).
  induction before as [|[k' x] before IH]; cbn [app lookup].
  - now rewrite String.eqb_refl.
  - cbn [map fst In] in Hnot.
    destruct (String.eqb_spec k k') as [->|_]; [exfalso; auto|].
    apply IH. auto.
Qed.

Lemma lookup_no_field (props : JSObject) (k : string) :
  ~ In k (map fst props) -> lookup k props = JUndefined.
Proof.
  induction props as [|[k' x] props IH]; cbn [map fst In lookup]; intros H;
    [reflexivity|].
  destruct (String.eqb_spec k k') as [->|_]; [exfalso; auto|].
  apply IH. auto.
Qed.

(** C4.  When the server answers [addHobby], [addExistingHobbyToProfile] or
    [deleteHobbyFromProfile] with HTTP 2xx and a [status] field other than
    ['success'], the action makes no further request, leaves the state as
    it was and returns [{success: false, error: E}], [E] being the [errors]
    field of the response body ([undefined] when the body has none). *)
Theorem hobby_action_refused
  (w : World) (token : string) (r : Response) (st' : ServerState)
  (data st : JSValue) :
  getCookie (document_cookie w) "csrftoken" = Some token ->
  (200 <= status r <= 299)%Z ->
  json_body r = Some data ->
  get_prop data "status" = Ok st ->
  st <> JStr "success" ->
  exists errors,
    get_prop data "errors" = Ok errors /\
    (forall props E, data = JObj props -> has_field props "errors" E -> errors = E) /\
    (forall props, data = JObj props -> ~ In "errors" (map fst props) ->
       errors = JUndefined) /\
    (forall hobbyName,
       let req := {| url := "/api/hobbies/";
                     method := POST;
                     credentials_include := true;
                     headers := [("Content-Type", "application/json");
                                 ("X-CSRFToken", token)];
                     body := Some (JObj [("name", JStr hobbyName)]) |} in
       server (server_state w) req = (Resolved r, st') ->
       addHobby server hobbyName w =
         (Ok {| success := false; error := Some (ErrValue errors); hobby := None |},
          {| store := store w;
             document_cookie := document_cookie w;
             server_state := st';
             log := (log w ++ [Fetched req (Resolved r)])%list |})) /\
    (forall hobbyId,
       let req := {| url := "/api/profile/add_hobby";
                     method := POST;
                     credentials_include := true;
                     headers := [("Content-Type", "application/json");
                                 ("X-CSRFToken", token)];
                     body := Some (JObj [("hobby_id", JNum hobbyId)]) |} in
       server (server_state w) req = (Resolved r, st') ->
       addExistingHobbyToProfile server hobbyId w =
         (Ok {| success := false; error := Some (ErrValue errors); hobby := None |},
          {| store := store w;
             document_cookie := document_cookie w;
             server_state := st';
             log := (log w ++ [Fetched req (Resolved r)])%list |})) /\
    (forall hobbyId,
       let req := {| url := "/api/profile/delete_hobby";
                     method := POST;
                     credentials_include := true;
                     headers := [("Content-Type", "application/json");
                                 ("X-CSRFToken", token)];
                     body := Some (JObj [("hobby_id", JNum hobbyId)]) |} in
       server (server_state w) req = (Resolved r, st') ->
       deleteHobbyFromProfile server hobbyId w =
         (Ok {| success := false; error := Some (ErrValue errors); hobby := None |},
          {| store := store w;
             document_cookie := document_cookie w;
             server_state := st';
             log := (log w ++ [Fetched req (Resolved r)])%list |})).
Proof.
  intros Htok Hstatus Hbody Hst Hne. apply status_2xx_ok in Hstatus.
  destruct (read_cookie_token _ _ Htok) as [R (c & t & ->)].
  apply is_success_false in Hne.
  assert (Herr : exists errors, get_prop data "errors" = Ok errors).
  { destruct data; simpl in Hst; try discriminate; simpl; eauto. }
  destruct Herr as [errors Herr]. exists errors. split; [exact Herr|].
  split.
  { intros props E -> Hf. cbn in Herr. inversion Herr; subst errors.
    now apply lookup_has_field. }
  split.
  { intros props -> Hno. cbn in Herr. inversion Herr; subst errors.
    now apply lookup_no_field. }
  repeat split; intros hb req Hreq;
    unfold addHobby, addExistingHobbyToProfile, deleteHobbyFromProfile,
      post_hobby_id, try_catch, bind;
    rewrite R;
    match goal with
    | |- context [fetch server ?q] => change q with req
    end;
    rewrite (fetch_resolved _ _ _ _ Hreq), Hstatus; cbn; unfold json; rewrite Hbody;
    cbn; unfold lift; rewrite Hst, Hne, Herr; same_world.
Qed.

(** *** The query string *)

Lemma encode_unreserved (c : ascii) (s : string) :
  URLSearchParams.unreserved c = true ->
  URLSearchParams.encode (String c s) = String c (URLSearchParams.encode s).
Proof. intros H. cbn [URLSearchParams.encode]. now rewrite H. Qed.

Lemma encode_uint (u : Decimal.uint) :
  URLSearchParams.encode (NilEmpty.string_of_uint u) = NilEmpty.string_of_uint u.
Proof.
  induction u; cbn [NilEmpty.string_of_uint]; [reflexivity | ..];
    rewrite encode_unreserved by reflexivity; now rewrite IHu.
Qed.

Lemma encode_number (n : Z) :
  URLSearchParams.encode (Str.number_toString n) = Str.number_toString n.
Proof.
  unfold Str.number_toString, NilZero.string_of_int, NilZero.string_of_uint.
  destruct (Z.to_int n) as [u|u];
    [|rewrite encode_unreserved by reflexivity; f_equal];
    (destruct u; [reflexivity | apply encode_uint ..]).
Qed.

Lemma bound_toString_truthy (b : AgeBound) :
  bound_truthy b = true -> exists n, b = AgeNum n /\ n <> 0%Z.
Proof.
  destruct b as [| | |n]; simpl; try discriminate.
  intros H. exists n. split; [reflexivity|].
  intros ->. discriminate.
Qed.

Lemma similar_users_url_eq (params : FilterParams) :
  similar_users_url params =
    "/api/users/similar_with_filters/?page=" ++ Str.number_toString (page params)
    ++ (if bound_truthy (minAge params)
        then "&min_age=" ++ bound_toString (minAge params) else EmptyString)
    ++ (if bound_truthy (maxAge params)
        then "&max_age=" ++ bound_toString (maxAge params) else EmptyString).
Proof.
  unfold similar_users_url, similar_users_query.
  destruct (bound_truthy (minAge params)) eqn:Hlo;
    destruct (bound_truthy (maxAge params)) eqn:Hhi;
    try (apply bound_toString_truthy in Hlo; destruct Hlo as (lo & -> & _));
    try (apply bound_toString_truthy in Hhi; destruct Hhi as (hi & -> & _));
    cbn [URLSearchParams.append app URLSearchParams.toString bound_toString];
    rewrite ?encode_number;
    change (URLSearchParams.encode "page") with "page";
    change (URLSearchParams.encode "min_age") with "min_age";
    change (URLSearchParams.encode "max_age") with "max_age";
    cbn [append]; rewrite ?append_assoc; cbn [append]; rewrite ?append_nil_r;
    reflexivity.
Qed.

(** A bound is truthy exactly when it is a number other than 0. *)
Lemma bound_truthy_iff (b : AgeBound) :
  bound_truthy b = true <-> exists n, b = AgeNum n /\ n <> 0%Z.
Proof.
  split.
  - apply bound_toString_truthy.
  - intros (n & -> & Hn). cbn. apply negb_true_iff. now apply Z.eqb_neq.
Qed.

Lemma times_sent_truthy (b : AgeBound) :
  times_sent b = if bound_truthy b then 1 else 0.
Proof. destruct b as [| | |n]; cbn; try reflexivity. now destruct (n =? 0)%Z. Qed.

(** The digits of a number have no letter in them. *)
Lemma avoids_uint (u : Decimal.uint) :
  avoids "m" (NilEmpty.string_of_uint u) = true.
Proof. induction u; cbn [NilEmpty.string_of_uint avoids]; try rewrite IHu; reflexivity. Qed.

Lemma avoids_number (n : Z) : avoids "m" (Str.number_toString n) = true.
Proof.
  unfold Str.number_toString, NilZero.string_of_int, NilZero.string_of_uint.
  destruct (Z.to_int n) as [u|u]; cbn [avoids]; destruct u;
    try reflexivity; apply avoids_uint.
Qed.

Lemma occurrences_avoided (a : ascii) (t u r : string) :
  avoids a u = true ->
  occurrences (String a t) (u ++ r) = occurrences (String a t) r.
Proof.
  induction u as [|c u IH]; intros H; [reflexivity|].
  cbn [avoids] in H. apply andb_true_iff in H. destruct H as [Hc Hu].
  apply negb_true_iff in Hc.
  cbn [append occurrences Str.starts_with]. rewrite Hc.
  cbn. now apply IH.
Qed.

Lemma occurrences_avoided_all (a : ascii) (t u : string) :
  avoids a u = true -> occurrences (String a t) u = 0.
Proof.
  intros H. rewrite <- (append_nil_r u). now rewrite occurrences_avoided.
Qed.

(** The URL has [min_age=] ([max_age=]) in it once when the bound is sent
    and not at all otherwise. *)
Lemma occurrences_in_url (params : FilterParams) :
  occurrences "min_age=" (similar_users_url params) = times_sent (minAge params) /\
  occurrences "max_age=" (similar_users_url params) = times_sent (maxAge params).
Proof.
  rewrite similar_users_url_eq, !times_sent_truthy.
  destruct (bound_truthy (minAge params)) eqn:Hlo;
    destruct (bound_truthy (maxAge params)) eqn:Hhi;
    try (apply bound_toString_truthy in Hlo; destruct Hlo as (lo & -> & _));
    try (apply bound_toString_truthy in Hhi; destruct Hhi as (hi & -> & _));
    cbn [bound_toString]; split;
    repeat first
      [ rewrite occurrences_avoided by apply avoids_number
      | rewrite occurrences_avoided_all by apply avoids_number
      | progress cbn [append occurrences Str.starts_with Ascii.eqb Bool.eqb Nat.add] ];
    reflexivity.
Qed.

Lemma decimal_value_number (n : Z) : decimal_value (Str.number_toString n) = Some n.
Proof.
  unfold decimal_value, Str.number_toString.
  rewrite NilZero.isi.
  - cbn [option_map]. now rewrite DecimalZ.of_to.
  - destruct n; cbn; try discriminate.
    intros E. inversion E as [E']. now apply Unsigned.to_uint_nonnil in E'.
  - destruct n; cbn; try discriminate.
    intros E. inversion E as [E']. now apply Unsigned.to_uint_nonnil in E'.
Qed.

Lemma bound_in_query (params : FilterParams) :
  (forall n, minAge params = AgeNum n -> n <> 0%Z ->
     In ("min_age", Str.number_toString n) (similar_users_query params)) /\
  (forall n, maxAge params = AgeNum n -> n <> 0%Z ->
     In ("max_age", Str.number_toString n) (similar_users_query params)).
Proof.
  unfold similar_users_query. split; intros n Hb Hn; rewrite Hb;
    assert (Ht : bound_truthy (AgeNum n) = true)
      by (cbn; apply negb_true_iff; now apply Z.eqb_neq).
  - rewrite Ht. cbn [bound_toString].
    destruct (bound_truthy (maxAge params)); unfold URLSearchParams.append;
      cbn; auto.
  - rewrite Ht. cbn [bound_toString].
    destruct (bound_truthy (minAge params)); unfold URLSearchParams.append;
      cbn; auto.
Qed.

(** C10.  The request of [fetchSimilarUsers] has a [min_age] (a [max_age])
    parameter exactly when [params.minAge] ([params.maxAge]) is truthy, that
    is a number other than 0: then the parameter is in the query with the
    decimal digits of the bound and [min_age=] is in the URL once; for a
    bound of 0, [NaN], [null] or [undefined] it is in neither, so asking
    for a bound of 0 sends the same request as asking for no bound. *)
Theorem age_bound_sent_iff_truthy (params : FilterParams) (w : World) :
  (In "min_age" (map fst (similar_users_query params)) <->
   exists n, minAge params = AgeNum n /\ n <> 0%Z) /\
  (In "max_age" (map fst (similar_users_query params)) <->
   exists n, maxAge params = AgeNum n /\ n <> 0%Z) /\
  (exists req out rest,
     log (snd (fetchSimilarUsers server params w)) =
       (log w ++ Fetched req out :: rest)%list /\
     (forall req' out', ~ In (Fetched req' out') rest) /\
     method req = GET /\
     (exists query, url req = "/api/users/similar_with_filters/?page=" ++ query) /\
     occurrences "min_age=" (url req) = times_sent (minAge params) /\
     occurrences "max_age=" (url req) = times_sent (maxAge params)) /\
  (forall n, safe_integer n -> minAge params = AgeNum n -> n <> 0%Z ->
     exists digits,
       In ("min_age", digits) (similar_users_query params) /\
       decimal_value digits = Some n) /\
  (forall n, safe_integer n -> maxAge params = AgeNum n -> n <> 0%Z ->
     exists digits,
       In ("max_age", digits) (similar_users_query params) /\
       decimal_value digits = Some n) /\
  (forall none, In none [AgeNum 0; AgeNaN; AgeNull] ->
     similar_users_url {| page := page params; minAge := none; maxAge := maxAge params |}
       = similar_users_url {| page := page params; minAge := AgeUndefined;
                              maxAge := maxAge params |} /\
     similar_users_url {| page := page params; minAge := minAge params; maxAge := none |}
       = similar_users_url {| page := page params; minAge := minAge params;
                              maxAge := AgeUndefined |}).
Proof.
  assert (Hkeys :
    (In "min_age" (map fst (similar_users_query params)) <->
     bound_truthy (minAge params) = true) /\
    (In "max_age" (map fst (similar_users_query params)) <->
     bound_truthy (maxAge params) = true)).
  { unfold similar_users_query.
    destruct (bound_truthy (minAge params)); destruct (bound_truthy (maxAge params));
      cbn; intuition (try discriminate). }
  destruct Hkeys as [Hmin Hmax].
  split; [rewrite Hmin; apply bound_truthy_iff|].
  split; [rewrite Hmax; apply bound_truthy_iff|].
  split.
  { destruct (fetchSimilarUsers_one_request params w) as (out & rest & _ & H & H').
    exists (get_request (similar_users_url params)), out, rest.
    split; [exact H|]. split; [now apply network_calls_none|].
    split; [reflexivity|]. split.
    - rewrite similar_users_url_eq. cbn [get_request url]. eexists. reflexivity.
    - apply occurrences_in_url. }
  destruct (bound_in_query params) as [Hlo Hhi].
  split.
  { intros n _ Hb Hn. exists (Str.number_toString n).
    split; [now apply Hlo | apply decimal_value_number]. }
  split.
  { intros n _ Hb Hn. exists (Str.number_toString n).
    split; [now apply Hhi | apply decimal_value_number]. }
  intros none Hnone.
  destruct Hnone as [<-|[<-|[<-|[]]]]; split; reflexivity.
Qed.

(** *** The body of the update *)

Lemma json_entries_cons (k : string) (x : JSValue) (ps : JSObject) :
  json_entries ((k, x) :: ps) =
  match x with
  | JUndefined => json_entries ps
  | _ => (k, JSON_stringify x) :: json_entries ps
  end.
Proof. destruct x; reflexivity. Qed.

Lemma lookup_sent_property (k : string) (v : JSValue) (props : JSObject) :
  v <> JUndefined ->
  lookup k (json_entries (obj_set k v props)) = JSON_stringify v.
Proof.
  intros Hv. induction props as [|[k' x] ps IH].
  - cbn [obj_set]. rewrite json_entries_cons.
    destruct v; try congruence; cbn [lookup]; now rewrite String.eqb_refl.
  - cbn [obj_set]. destruct (String.eqb_spec k k') as [<-|Hk].
    + rewrite json_entries_cons.
      destruct v; try congruence; cbn [lookup]; now rewrite String.eqb_refl.
    + rewrite json_entries_cons.
      destruct x; try exact IH; cbn [lookup];
        (destruct (String.eqb_spec k k'); [congruence | exact IH]).
Qed.

Lemma JSON_stringify_ids (ids : list Z) :
  JSON_stringify (JArr (map JNum ids)) = JArr (map JNum ids).
Proof.
  cbn [JSON_stringify]. f_equal.
  induction ids as [|n ids IH]; cbn [map]; [reflexivity | now rewrite IH].
Qed.

Lemma array_map_hobby_refs (refs : list HobbyRef) :
  array_map hobby_id (map HobbyRef_value refs) = Ok (map JNum (map HobbyRef_id refs)).
Proof.
  induction refs as [|[n|h] refs IH]; cbn [map array_map]; [reflexivity | ..];
    rewrite IH; reflexivity.
Qed.

(** C5.  When the [hobbies] of the input mix raw ids and [Hobby] objects,
    the first request of [updateProfile] is a PUT to ['/api/profile/'] whose
    body has for [hobbies] the list of the ids, every object replaced by
    its [id], in the order of the input. *)
Theorem updateProfile_sends_hobby_ids
  (w : World) (token : string) (updatedData : JSObject) (refs : list HobbyRef) :
  getCookie (document_cookie w) "csrftoken" = Some token ->
  lookup "hobbies" updatedData = JArr (map HobbyRef_value refs) ->
  exists req out rest sent,
    log (snd (updateProfile server updatedData w)) =
      (log w ++ Fetched req out :: rest)%list /\
    url req = "/api/profile/" /\
    method req = PUT /\
    body req = Some (JObj sent) /\
    lookup "hobbies" sent = JArr (map JNum (map HobbyRef_id refs)).
Proof.
  intros Htok Hhobbies.
  destruct (read_cookie_token _ _ Htok) as [R (c & t & ->)].
  set (ids := JArr (map JNum (map HobbyRef_id refs))).
  set (req := json_request PUT "/api/profile/" (String c t)
                (JObj (obj_set "hobbies" ids updatedData))).
  assert (Hsent : lookup "hobbies" (json_entries (obj_set "hobbies" ids updatedData)) = ids).
  { rewrite lookup_sent_property by discriminate. apply JSON_stringify_ids. }
  assert (Hlog : exists out rest,
            log (snd (updateProfile server updatedData w)) =
              (log w ++ Fetched req out :: rest)%list).
  { unfold updateProfile, try_catch, bind. rewrite R. unfold lift.
    rewrite Hhobbies. unfold format_hobbies. rewrite array_map_hobby_refs.
    fold ids. fold req. unfold fetch at 1.
    destruct (server (server_state w) req) as [[r|] st1].
    2: { exists Rejected. eexists. same_world. }
    exists (Resolved r). destruct (ok r); cbn.
    - unfold fetchUserProfile, try_catch, bind, fetch. cbn.
      destruct (server st1 (get_request "/api/profile/")) as [[r2|] st2]; cbn.
      2: { eexists. same_world. }
      destruct (ok r2); cbn.
      + unfold json. destruct (json_body r2); eexists; same_world.
      + destruct ((status r2 =? 403)%Z || (status r2 =? 401)%Z); eexists; same_world.
    - unfold json. destruct (json_body r) as [d|]; [|eexists; same_world].
      destruct d; eexists; same_world. }
  destruct Hlog as (out & rest & Hlog).
  exists req, out, rest, (json_entries (obj_set "hobbies" ids updatedData)).
  repeat split; [exact Hlog | exact Hsent].
Qed.

(** *** Refetch after write *)

(** C1, as amended.  An [updateProfile] that returns [{success: true}] has
    sent its PUT and then one [GET /api/profile/].  When that GET brings a
    document (a 2xx response with a JSON body), [userData] is exactly that
    document and the rest of the state is as it was: nothing of the old
    [userData] or of the update is merged in.  When it brings none, the
    state is as it was before the call and the browser is sent to
    ['/login/']. *)
Theorem updateProfile_success_refetches
  (w w' : World) (updatedData : JSObject) :
  updateProfile server updatedData w = (Ok succeeded, w') ->
  exists put put_out get_out rest,
    log w' = (log w ++ Fetched put put_out
                :: Fetched (get_request "/api/profile/") get_out :: rest)%list /\
    url put = "/api/profile/" /\
    method put = PUT /\
    network_calls rest = [] /\
    match profile_document get_out with
    | Some d => userData (store w') = d /\ store w' = with_userData d (store w)
    | None => store w' = store w /\ In (Navigated "/login/") rest
    end.
Proof.
  intros H. unfold updateProfile, try_catch, bind, read_cookie in H.
  destruct (getCookie (document_cookie w) "csrftoken") as [[|c t]|];
    cbn in H; try discriminate.
  unfold lift in H.
  destruct (format_hobbies (lookup "hobbies" updatedData)) as [ids|e];
    cbn in H; [|discriminate].
  set (put := json_request PUT "/api/profile/" (String c t)
                (JObj (obj_set "hobbies" ids updatedData))) in H.
  unfold fetch at 1 in H.
  destruct (server (server_state w) put) as [[r|] st1]; cbn in H; [|discriminate].
  destruct (ok r); cbn in H.
  2: { unfold json in H. destruct (json_body r) as [d|]; [destruct d|];
       cbn in H; discriminate. }
  unfold fetchUserProfile, try_catch, bind, fetch in H. cbn in H.
  destruct (server st1 (get_request "/api/profile/")) as [[r2|] st2] eqn:Hget;
    cbn in H.
  - exists put, (Resolved r), (Resolved r2). unfold profile_document.
    destruct (ok r2); cbn in H.
    + unfold json in H. destruct (json_body r2) as [d|]; cbn in H;
        inversion H; subst w'; clear H.
      * exists []. cbn. rewrite <- app_assoc. repeat split.
      * eexists [_; _]. cbn. rewrite <- !app_assoc. repeat split. cbn. auto.
    + destruct ((status r2 =? 403)%Z || (status r2 =? 401)%Z); cbn in H;
        inversion H; subst w'; clear H.
      * eexists [_]. cbn. rewrite <- !app_assoc. repeat split. cbn. auto.
      * eexists [_; _]. cbn. rewrite <- !app_assoc. repeat split. cbn. auto.
  - exists put, (Resolved r), Rejected. inversion H; subst w'; clear H.
    eexists [_; _]. cbn. rewrite <- !app_assoc. repeat split. cbn. auto.
Qed.

End Properties.

(** ** Runs of the examples *)

Example getCookie_present :
  getCookie "sessionid=xyz; csrftoken=abc123; theme=dark" "csrftoken" = Some "abc123".
Proof. reflexivity. Qed.

Example getCookie_empty_value :
  getCookie "csrftoken=; theme=dark" "csrftoken" = None.
Proof. reflexivity. Qed.

Example getCookie_twice :
  getCookie "csrftoken=a; csrftoken=b" "csrftoken" = None.
Proof. reflexivity. Qed.

Example refetch_refused_run :
  fst (updateProfile expired_server rename signed_in) = Ok succeeded /\
  userData (store (snd (updateProfile expired_server rename signed_in))) = ann /\
  In (Navigated "/login/") (log (snd (updateProfile expired_server rename signed_in))).
Proof.
  split; [reflexivity|]. split; [reflexivity|].
  cbn. right. right. left. reflexivity.
Qed.

Example zero_bound_dropped :
  similar_users_url {| page := 1; minAge := AgeNum 0; maxAge := AgeNull |}
    = "/api/users/similar_with_filters/?page=1".
Proof. reflexivity. Qed.

(** C1 as it is worded fails when the refetch is refused: against a server
    that accepts the PUT and answers the GET with 401, [updateProfile]
    returns [{success: true}], no document was fetched, and [userData] is
    the profile from before the update. *)
Lemma refetch_refused_counterexample :
  ~ refetch_claim expired_server signed_in rename.
Proof.
  intros H. destruct (H _ eq_refl) as (out & d & Hin & Hdoc & _).
  cbn in Hin.
  repeat (destruct Hin as [Hin|Hin];
          [ try discriminate; inversion Hin; subst out; discriminate | ]).
  exact Hin.
Qed.

Lemma updateProfile_success_refetches_witness :
  updateProfile healthy_server rename signed_in =
    (Ok succeeded, snd (updateProfile healthy_server rename signed_in)) /\
  userData (store (snd (updateProfile healthy_server rename signed_in))) = ann_renamed /\
  exists put put_out get_out rest,
    log (snd (updateProfile healthy_server rename signed_in)) =
      (log signed_in ++ Fetched put put_out
         :: Fetched (get_request "/api/profile/") get_out :: rest)%list /\
    url put = "/api/profile/" /\
    method put = PUT /\
    network_calls rest = [] /\
    match profile_document get_out with
    | Some d =>
        userData (store (snd (updateProfile healthy_server rename signed_in))) = d /\
        store (snd (updateProfile healthy_server rename signed_in)) =
          with_userData d (store signed_in)
    | None =>
        store (snd (updateProfile healthy_server rename signed_in)) = store signed_in /\
        In (Navigated "/login/") rest
    end.
Proof.
  split; [reflexivity|]. split; [reflexivity|].
  apply (updateProfile_success_refetches healthy_server signed_in _ rename).
  reflexivity.
Defined.

Lemma no_token_absent : cookie_absent "csrftoken" (document_cookie no_token).
Proof. apply find_first_none. reflexivity. Qed.

Lemma csrf_absent_short_circuit_witness :
  cookie_absent "csrftoken" (document_cookie no_token) /\
  updateProfile healthy_server rename no_token =
    (Ok {| success := false;
           error := Some (ErrValue (JStr "CSRF token not found"));
           hobby := None |},
     {| store := store no_token;
        document_cookie := "sessionid=xyz";
        server_state := tt;
        log := [ConsoleError "CSRF token not found." None] |}) /\
  fst (addHobby healthy_server "Chess" no_token) =
    Ok {| success := false;
          error := Some (ErrValue (JStr "CSRF token not found"));
          hobby := None |} /\
  fst (addExistingHobbyToProfile healthy_server 7 no_token) =
    Ok {| success := false;
          error := Some (ErrValue (JStr "CSRF token not found"));
          hobby := None |} /\
  fst (deleteHobbyFromProfile healthy_server 7 no_token) =
    Ok {| success := false;
          error := Some (ErrValue (JStr "CSRF token not found"));
          hobby := None |} /\
  fst (sendFriendRequest healthy_server "bob" no_token) =
    Ok {| success := false;
          error := Some (ErrValue (JStr "CSRF token not found"));
          hobby := None |}.
Proof.
  split; [exact no_token_absent|].
  destruct (csrf_absent_short_circuit healthy_server no_token no_token_absent)
    as (H1 & H2 & H3 & H4 & H5 & _).
  rewrite (H1 rename), (H2 "Chess"), (H3 7%Z), (H4 7%Z), (H5 "bob").
  exact (conj eq_refl (conj eq_refl (conj eq_refl (conj eq_refl eq_refl)))).
Defined.

Lemma fetchUserProfile_unauthorized_witness :
  (status (json_status 401 (JObj [("detail", JStr "Not authenticated")])) = 401%Z \/
   status (json_status 401 (JObj [("detail", JStr "Not authenticated")])) = 403%Z) /\
  fetchUserProfile expired_server signed_in =
    (Ok tt, answered tt
       [Fetched (get_request "/api/profile/")
          (Resolved (json_status 401 (JObj [("detail", JStr "Not authenticated")])));
        Navigated "/login/"] signed_in) /\
  store (snd (fetchUserProfile expired_server signed_in)) = store signed_in.
Proof.
  split; [left; reflexivity|].
  apply (fetchUserProfile_unauthorized expired_server signed_in
           (json_status 401 (JObj [("detail", JStr "Not authenticated")])) tt).
  - reflexivity.
  - left. reflexivity.
Defined.

Lemma hobby_action_refused_witness :
  getCookie (document_cookie signed_in) "csrftoken" = Some "tok" /\
  (200 <= status (json_ok refusal) <= 299)%Z /\
  get_prop refusal "status" = Ok (JStr "error") /\
  JStr "error" <> JStr "success" /\
  has_field [("status", JStr "error"); ("errors", JStr "Hobby already exists")]
    "errors" (JStr "Hobby already exists") /\
  fst (addHobby refusing_server "Chess" signed_in) =
    Ok {| success := false;
          error := Some (ErrValue (JStr "Hobby already exists"));
          hobby := None |} /\
  snd (addHobby refusing_server "Chess" signed_in) =
    {| store := store signed_in;
       document_cookie := document_cookie signed_in;
       server_state := tt;
       log := [Fetched {| url := "/api/hobbies/";
                          method := POST;
                          credentials_include := true;
                          headers := [("Content-Type", "application/json");
                                      ("X-CSRFToken", "tok")];
                          body := Some (JObj [("name", JStr "Chess")]) |}
                 (Resolved (json_ok refusal))] |} /\
  fst (addExistingHobbyToProfile refusing_server 7 signed_in) =
    Ok {| success := false;
          error := Some (ErrValue (JStr "Hobby already exists"));
          hobby := None |} /\
  fst (deleteHobbyFromProfile refusing_server 7 signed_in) =
    Ok {| success := false;
          error := Some (ErrValue (JStr "Hobby already exists"));
          hobby := None |}.
Proof.
  assert (Hfield : has_field [("status", JStr "error");
                              ("errors", JStr "Hobby already exists")]
                     "errors" (JStr "Hobby already exists")).
  { exists [("status", JStr "error")], []. split; [reflexivity|].
    cbn. intros [E|[]]. discriminate. }
  split; [reflexivity|]. split; [cbn; lia|]. split; [reflexivity|].
  split; [discriminate|]. split; [exact Hfield|].
  destruct (hobby_action_refused refusing_server signed_in "tok" (json_ok refusal) tt
              refusal (JStr "error") eq_refl ltac:(cbn; lia) eq_refl eq_refl
              ltac:(discriminate))
    as (errors & He & Hf & _ & Ha & Hb & Hc).
  rewrite (Ha "Chess" eq_refl), (Hb 7%Z eq_refl), (Hc 7%Z eq_refl).
  rewrite (Hf _ _ eq_refl Hfield).
  exact (conj eq_refl (conj eq_refl (conj eq_refl eq_refl))).
Defined.

Lemma updateProfile_sends_hobby_ids_witness :
  getCookie (document_cookie signed_in) "csrftoken" = Some "tok" /\
  lookup "hobbies" rename_with_hobbies = JArr (map HobbyRef_value mixed_hobbies) /\
  exists req out rest sent,
    log (snd (updateProfile healthy_server rename_with_hobbies signed_in)) =
      (log signed_in ++ Fetched req out :: rest)%list /\
    url req = "/api/profile/" /\
    method req = PUT /\
    body req = Some (JObj sent) /\
    lookup "hobbies" sent = JArr [JNum 3; JNum 7; JNum 5].
Proof.
  split; [reflexivity|]. split; [reflexivity|].
  apply (updateProfile_sends_hobby_ids healthy_server signed_in "tok"
           rename_with_hobbies mixed_hobbies); reflexivity.
Defined.

Lemma fetchSimilarUsers_page_two_witness :
  paging_server (server_state signed_in)
    {| url := "/api/users/similar_with_filters/?page=2&min_age=18&max_age=30";
       method := GET;
       credentials_include := true;
       headers := [];
       body := None |}
    = (Resolved (json_ok (page_two (JArr [JObj [("username", JStr "bob")]]))), tt) /\
  (200 <= status (json_ok (page_two (JArr [JObj [("username", JStr "bob")]]))) <= 299)%Z /\
  similarUsers (store (snd (fetchSimilarUsers paging_server page_two_params signed_in)))
    = JArr [JObj [("username", JStr "bob")]] /\
  currentPage (store (snd (fetchSimilarUsers paging_server page_two_params signed_in)))
    = JNum 2 /\
  totalPages (store (snd (fetchSimilarUsers paging_server page_two_params signed_in)))
    = JNum 5 /\
  log (snd (fetchSimilarUsers paging_server page_two_params signed_in)) =
    [Fetched {| url := "/api/users/similar_with_filters/?page=2&min_age=18&max_age=30";
                method := GET;
                credentials_include := true;
                headers := [];
                body := None |}
       (Resolved (json_ok (page_two (JArr [JObj [("username", JStr "bob")]]))))].
Proof.
  split; [reflexivity|]. split; [cbn; lia|].
  destruct (fetchSimilarUsers_page_two paging_server signed_in
              (json_ok (page_two (JArr [JObj [("username", JStr "bob")]]))) tt
              (JArr [JObj [("username", JStr "bob")]])) as [_ H].
  unfold page_two_params.
  rewrite (H eq_refl ltac:(cbn; lia) eq_refl).
  exact (conj eq_refl (conj eq_refl (conj eq_refl eq_refl))).
Defined.

Lemma eighteen_safe : safe_integer 18.
Proof. unfold safe_integer. lia. Qed.

Lemma thirty_safe : safe_integer 30.
Proof. unfold safe_integer. lia. Qed.

Lemma age_bound_sent_iff_truthy_witness :
  safe_integer 18 /\ safe_integer 30 /\
  In ("min_age", "18") (similar_users_query page_two_params) /\
  In ("max_age", "30") (similar_users_query page_two_params) /\
  decimal_value "18" = Some 18%Z /\
  decimal_value "30" = Some 30%Z /\
  exists digits_lo digits_hi,
    (In ("min_age", digits_lo) (similar_users_query page_two_params) /\
     decimal_value digits_lo = Some 18%Z) /\
    (In ("max_age", digits_hi) (similar_users_query page_two_params) /\
     decimal_value digits_hi = Some 30%Z).
Proof.
  split; [exact eighteen_safe|]. split; [exact thirty_safe|].
  split; [cbn; auto|]. split; [cbn; auto|].
  split; [reflexivity|]. split; [reflexivity|].
  destruct (age_bound_sent_iff_truthy paging_server page_two_params signed_in)
    as (_ & _ & _ & Hlo & Hhi & _).
  destruct (Hlo 18%Z eighteen_safe eq_refl ltac:(discriminate)) as [lo Hlo'].
  destruct (Hhi 30%Z thirty_safe eq_refl ltac:(discriminate)) as [hi Hhi'].
  exists lo, hi. exact (conj Hlo' Hhi').
Defined.

Lemma failed_fetch_leaves_state_witness :
  fetch_failure Rejected /\
  (exists e,
     fetchHobbies down_server signed_in =
       (Ok tt, answered tt [Fetched (get_request "/api/hobbies/") Rejected;
                            ConsoleError "Error fetching hobbies:" (Some e)] signed_in)) /\
  (exists e,
     fetchSimilarUsers down_server page_two_params signed_in =
       (Ok tt, answered tt [Fetched (get_request (similar_users_url page_two_params)) Rejected;
                            ConsoleError "Error fetching similar users:" (Some e)] signed_in)).
Proof.
  split; [constructor|].
  destruct (failed_fetch_leaves_state down_server signed_in Rejected tt transport_failure)
    as (Hh & Hs & _).
  split; [apply Hh; reflexivity | apply Hs; reflexivity].
Defined.

(** * Further properties of the store *)

(** ** What every call does *)

Section Footprints.

Context {ServerState : Type}.
Variable server : ServerState -> Request -> FetchOutcome * ServerState.
Variable allowed : Event -> Prop.
Variable change : UserState -> UserState -> Prop.
Variable cookie : string.

Hypothesis change_refl : forall s, change s s.
Hypothesis change_trans : forall s1 s2 s3, change s1 s2 -> change s2 s3 -> change s1 s3.
Hypothesis allowed_request :
  forall req out, api_request cookie req -> allowed (Fetched req out).
Hypothesis allowed_console : forall label thrown, allowed (ConsoleError label thrown).
Hypothesis allowed_navigation : forall to, allowed (Navigated to).

Local Abbreviation footprint' := (@footprint ServerState _ allowed change cookie).

Lemma fp_ret {A} (a : A) : footprint' (ret a).
Proof.
  intros w Hc. cbn. repeat split; auto. exists []. now rewrite app_nil_r.
Qed.

Lemma fp_throw {A} (e : JSError) : footprint' (@throw ServerState A e).
Proof.
  intros w Hc. cbn. repeat split; auto. exists []. now rewrite app_nil_r.
Qed.

Lemma fp_lift {A} (r : Result A) : footprint' (lift r).
Proof.
  intros w Hc. cbn. repeat split; auto. exists []. now rewrite app_nil_r.
Qed.

Lemma fp_emit (e : Event) : allowed e -> footprint' (emit e).
Proof.
  intros He w Hc. cbn. repeat split; auto. exists [e]. auto.
Qed.

Lemma fp_modify (f : UserState -> UserState) :
  (forall s, change s (f s)) -> footprint' (modify f).
Proof.
  intros Hf w Hc. cbn. repeat split; auto. exists []. now rewrite app_nil_r.
Qed.

Lemma fp_fetch (req : Request) :
  api_request cookie req -> footprint' (fetch server req).
Proof.
  intros Hreq w Hc. unfold fetch.
  destruct (server (server_state w) req) as [[r|] st']; cbn;
    (repeat split; auto; eexists [_]; split; [reflexivity | auto]).
Qed.

Lemma fp_bind {A B} (m : M A) (k : A -> M B) :
  footprint' m -> (forall a, footprint' (k a)) -> footprint' (bind m k).
Proof.
  intros Hm Hk w Hc. unfold bind.
  destruct (Hm w Hc) as (Hc1 & Hs1 & es1 & Hl1 & Ha1).
  destruct (m w) as [[a|e] w1]; cbn in *.
  - destruct (Hk a w1 Hc1) as (Hc2 & Hs2 & es2 & Hl2 & Ha2).
    split; [exact Hc2|]. split; [eauto|].
    exists (es1 ++ es2)%list. rewrite Hl2, Hl1, app_assoc.
    split; [reflexivity | now apply Forall_app].
  - split; [exact Hc1|]. split; [exact Hs1|]. now exists es1.
Qed.

Lemma fp_try_catch {A} (m : M A) (handler : JSError -> M A) :
  footprint' m -> (forall e, footprint' (handler e)) -> footprint' (try_catch m handler).
Proof.
  intros Hm Hh w Hc. unfold try_catch.
  destruct (Hm w Hc) as (Hc1 & Hs1 & es1 & Hl1 & Ha1).
  destruct (m w) as [[a|e] w1]; cbn in *.
  - split; [exact Hc1|]. split; [exact Hs1|]. now exists es1.
  - destruct (Hh e w1 Hc1) as (Hc2 & Hs2 & es2 & Hl2 & Ha2).
    split; [exact Hc2|]. split; [eauto|].
    exists (es1 ++ es2)%list. rewrite Hl2, Hl1, app_assoc.
    split; [reflexivity | now apply Forall_app].
Qed.

Lemma fp_read_cookie {A} (name : string) (k : option string -> M A) :
  footprint' (k (getCookie cookie name)) -> footprint' (bind (read_cookie name) k).
Proof.
  intros Hk w Hc. unfold bind, read_cookie. rewrite Hc. exact (Hk w Hc).
Qed.

(** The rules are applied along the structure of an action. *)
Ltac fp_step :=
  match goal with
  | |- footprint _ _ _ (try_catch _ _) => apply fp_try_catch; [|intros ?]
  | |- footprint _ _ _ (bind (read_cookie _) _) => apply fp_read_cookie
  | |- footprint _ _ _ (bind _ _) => apply fp_bind; [|intros ?]
  | |- footprint _ _ _ (ret _) => apply fp_ret
  | |- footprint _ _ _ (throw _) => apply fp_throw
  | |- footprint _ _ _ (lift _) => apply fp_lift
  | |- footprint _ _ _ (json _) => unfold json
  | |- footprint _ _ _ (console_error _ _) => apply fp_emit; apply allowed_console
  | |- footprint _ _ _ (location_assign _) => apply fp_emit; apply allowed_navigation
  | |- footprint _ _ _ (fetch _ _) =>
      apply fp_fetch; econstructor; eassumption
  | |- footprint _ _ _ (match ?x with _ => _ end) => destruct x eqn:?
  | |- footprint _ _ _ (if ?b then _ else _) => destruct b eqn:?
  end.

Lemma fp_fetchUserProfile :
  (forall s v, change s (with_userData v s)) ->
  footprint' (fetchUserProfile server).
Proof.
  intros Hw. unfold fetchUserProfile.
  repeat first [fp_step | apply fp_modify; intros; apply Hw].
Qed.

Lemma fp_fetchHobbies :
  (forall s v, change s (with_hobbies v s)) ->
  footprint' (fetchHobbies server).
Proof.
  intros Hw. unfold fetchHobbies.
  repeat first [fp_step | apply fp_modify; intros; apply Hw].
Qed.

Lemma fp_fetchSimilarUsers (params : FilterParams) :
  (forall s v, change s (with_similarUsers v s)) ->
  (forall s v, change s (with_currentPage v s)) ->
  (forall s v, change s (with_totalPages v s)) ->
  footprint' (fetchSimilarUsers server params).
Proof.
  intros H1 H2 H3. unfold fetchSimilarUsers.
  repeat first [fp_step | apply fp_modify; intros; first [apply H1 | apply H2 | apply H3]].
Qed.

Lemma fp_updateProfile (updatedData : JSObject) :
  (forall s v, change s (with_userData v s)) ->
  footprint' (updateProfile server updatedData).
Proof.
  intros Hw. unfold updateProfile.
  repeat first [apply fp_fetchUserProfile; exact Hw | fp_step].
Qed.

Lemma fp_addHobby (hobbyName : string) :
  (forall s v, change s (with_hobbies v s)) ->
  footprint' (addHobby server hobbyName).
Proof.
  intros Hw. unfold addHobby.
  repeat first [apply fp_fetchHobbies; exact Hw | fp_step].
Qed.

Lemma fp_addExistingHobbyToProfile (hobbyId : Z) :
  (forall s v, change s (with_userData v s)) ->
  footprint' (addExistingHobbyToProfile server hobbyId).
Proof.
  intros Hw. unfold addExistingHobbyToProfile, post_hobby_id.
  repeat first [apply fp_fetchUserProfile; exact Hw | fp_step].
Qed.

Lemma fp_deleteHobbyFromProfile (hobbyId : Z) :
  (forall s v, change s (with_userData v s)) ->
  footprint' (deleteHobbyFromProfile server hobbyId).
Proof.
  intros Hw. unfold deleteHobbyFromProfile, post_hobby_id.
  repeat first [apply fp_fetchUserProfile; exact Hw | fp_step].
Qed.

Lemma fp_sendFriendRequest (username : string) :
  footprint' (sendFriendRequest server username).
Proof. unfold sendFriendRequest. repeat fp_step. Qed.

End Footprints.

(** Side conditions of the rules: the relations on states are preorders,
    each setter stays within its relation, every event is allowed. *)
Ltac fp_side :=
  intros; cbn in *;
  unfold writes_userData, writes_hobbies, writes_page, writes_nothing in *;
  cbn in *; intuition (subst; auto; congruence).

Section CallProperties.

Context {ServerState : Type}.
Variable server : ServerState -> Request -> FetchOutcome * ServerState.

Local Abbreviation World := (@World ServerState).

Lemma call_footprint (c : Call) (cookie : string) :
  footprint (api_event cookie) (may_write c) cookie (call server c).
Proof.
  destruct c; cbn [call may_write]; unfold resolves_undefined, resolves_result, fetchPage;
    (apply fp_bind;
     [ fp_side
     | first [ apply fp_fetchUserProfile | apply fp_updateProfile | apply fp_addHobby
             | apply fp_addExistingHobbyToProfile | apply fp_deleteHobbyFromProfile
             | apply fp_fetchHobbies | apply fp_fetchSimilarUsers
             | apply fp_sendFriendRequest ]; fp_side
     | intros; apply fp_ret; fp_side ]).
Qed.

(** X2.  Every call writes only its own part of the state: the profile
    actions ([fetchUserProfile], [updateProfile], [addExistingHobbyToProfile],
    [deleteHobbyFromProfile]) can change [userData] only, [fetchHobbies] and
    [addHobby] the [hobbies] only, [fetchSimilarUsers] and [fetchPage] the
    three fields of the page only, and [sendFriendRequest] nothing. *)
Theorem call_writes_own_fields (c : Call) (w : World) :
  may_write c (store w) (store (snd (call server c w))).
Proof.
  destruct (call_footprint c (document_cookie w) w eq_refl) as (_ & H & _).
  exact H.
Qed.

Lemma api_request_shape (cookie : string) (req : Request) :
  api_request cookie req ->
  credentials_include req = true /\
  ((method req = GET /\ body req = None /\
    (url req = "/api/profile/" \/ url req = "/api/hobbies/" \/
     exists query, url req = "/api/users/similar_with_filters/?page=" ++ query))
   \/
   (In (method req, url req)
       [(PUT, "/api/profile/"); (POST, "/api/hobbies/");
        (POST, "/api/profile/add_hobby"); (POST, "/api/profile/delete_hobby");
        (POST, "/api/send_request/")] /\
    (exists payload, body req = Some (JObj payload)) /\
    In ("Content-Type", "application/json") (headers req) /\
    exists token,
      getCookie cookie "csrftoken" = Some token /\ token <> EmptyString /\
      In ("X-CSRFToken", token) (headers req))).
Proof.
  intros H. destruct H; (split; [reflexivity|]).
  1-3: left; split; [reflexivity|]; split; [reflexivity|].
  1: left; reflexivity.
  1: right; left; reflexivity.
  1: { right; right. rewrite similar_users_url_eq. cbn [get_request url].
       eexists. reflexivity. }
  all: right; split; [cbn; auto 6|]; split; [cbn; eauto|]; split; [cbn; auto|];
    exists token; (split; [assumption|]);
    (split; [intros ->; eapply getCookie_never_empty; eassumption | cbn; auto]).
Qed.

(** X3.  Every request that a call sends is one of the eight requests of
    the remote API and carries the credentials.  A read is a GET without a
    body; a write carries a JSON object, the JSON content type and, in
    [X-CSRFToken], the non-empty value that [getCookie('csrftoken')] gave
    when the call began. *)
Theorem call_requests_conform (c : Call) (w : World) :
  exists es,
    log (snd (call server c w)) = (log w ++ es)%list /\
    forall req out, In (Fetched req out) es ->
      credentials_include req = true /\
      ((method req = GET /\ body req = None /\
        (url req = "/api/profile/" \/ url req = "/api/hobbies/" \/
         exists query, url req = "/api/users/similar_with_filters/?page=" ++ query))
       \/
       (In (method req, url req)
           [(PUT, "/api/profile/"); (POST, "/api/hobbies/");
            (POST, "/api/profile/add_hobby"); (POST, "/api/profile/delete_hobby");
            (POST, "/api/send_request/")] /\
        (exists payload, body req = Some (JObj payload)) /\
        In ("Content-Type", "application/json") (headers req) /\
        exists token,
          getCookie (document_cookie w) "csrftoken" = Some token /\
          token <> EmptyString /\
          In ("X-CSRFToken", token) (headers req))).
Proof.
  destruct (call_footprint c (document_cookie w) w eq_refl) as (_ & _ & es & Hl & Ha).
  exists es. split; [exact Hl|]. intros req out Hin.
  rewrite Forall_forall in Ha. specialize (Ha _ Hin). cbn in Ha.
  now apply api_request_shape.
Qed.

End CallProperties.

Section Fulfilment.

Context {ServerState : Type}.
Variable server : ServerState -> Request -> FetchOutcome * ServerState.

Lemma returns_ret {A} (P : A -> Prop) (a : A) :
  P a -> returns P (@ret ServerState A a).
Proof. intros H w a' E. cbn in E. inversion E; subst. exact H. Qed.

Lemma returns_throw {A} (P : A -> Prop) (e : JSError) :
  returns P (@throw ServerState A e).
Proof. intros w a E. discriminate. Qed.

Lemma returns_bind {A B} (P : B -> Prop) (m : @M ServerState A) (k : A -> M B) :
  (forall x, returns P (k x)) -> returns P (bind m k).
Proof.
  intros Hk w b E. unfold bind in E.
  destruct (m w) as [[x|e] w1]; [exact (Hk x w1 b E) | discriminate].
Qed.

Lemma returns_try_catch {A} (P : A -> Prop) (m : @M ServerState A)
  (handler : JSError -> M A) :
  returns P m -> (forall e, returns P (handler e)) -> returns P (try_catch m handler).
Proof.
  intros Hm Hh w a E. unfold try_catch in E.
  destruct (m w) as [[x|e] w1] eqn:Em.
  - cbn in E. inversion E; subst. apply (Hm w). now rewrite Em.
  - exact (Hh e w1 a E).
Qed.

Lemma fulfils_try_catch {A} (P : A -> Prop) (m : @M ServerState A)
  (handler : JSError -> M A) :
  returns P m -> (forall e, fulfils P (handler e)) -> fulfils P (try_catch m handler).
Proof.
  intros Hm Hh w. unfold try_catch.
  destruct (m w) as [[x|e] w1] eqn:Em.
  - exists x. split; [reflexivity|]. apply (Hm w). now rewrite Em.
  - exact (Hh e w1).
Qed.

Lemma result_object_succeeded : result_object succeeded.
Proof. left. split; reflexivity. Qed.

Lemma result_object_with_hobby (h : JSValue) : result_object (succeeded_with_hobby h).
Proof. left. split; reflexivity. Qed.

Lemma result_object_failed (e : ErrorField) : result_object (failed e).
Proof. right. cbn. eauto. Qed.

Ltac returns_step :=
  match goal with
  | |- returns _ (bind _ _) => apply returns_bind; intros ?
  | |- returns _ (ret _) =>
      apply returns_ret;
      first [ apply result_object_succeeded | apply result_object_with_hobby
            | apply result_object_failed ]
  | |- returns _ (throw _) => apply returns_throw
  | |- returns _ (match ?x with _ => _ end) => destruct x
  | |- returns _ (if ?b then _ else _) => destruct b
  end.

Ltac fulfils_write :=
  apply fulfils_try_catch;
  [ repeat returns_step
  | intros e w; eexists; split; [reflexivity | apply result_object_failed] ].

Lemma read_never_throws (m : @M ServerState unit) (handler : JSError -> M unit) :
  (forall e w, fst (handler e w) = Ok tt) ->
  forall w, fst (try_catch m handler w) = Ok tt.
Proof.
  intros Hh w. unfold try_catch.
  destruct (m w) as [[[]|e] w1]; [reflexivity | apply Hh].
Qed.

(** X1.  No action lets an exception escape.  Whatever the server answers,
    and also when it does not answer or its body is no JSON or is [null],
    each of the four reads returns [undefined], and each of the five writes
    returns a result object: [success: true] without an [error], or
    [success: false] with an [error] and without a [hobby]. *)
Theorem actions_never_throw (w : @World ServerState) :
  fst (fetchUserProfile server w) = Ok tt /\
  fst (fetchHobbies server w) = Ok tt /\
  (forall params, fst (fetchSimilarUsers server params w) = Ok tt) /\
  (forall page minAge maxAge, fst (fetchPage server page minAge maxAge w) = Ok tt) /\
  (forall updatedData,
     exists res, fst (updateProfile server updatedData w) = Ok res /\ result_object res) /\
  (forall hobbyName,
     exists res, fst (addHobby server hobbyName w) = Ok res /\ result_object res) /\
  (forall hobbyId,
     exists res, fst (addExistingHobbyToProfile server hobbyId w) = Ok res /\
                 result_object res) /\
  (forall hobbyId,
     exists res, fst (deleteHobbyFromProfile server hobbyId w) = Ok res /\
                 result_object res) /\
  (forall username,
     exists res, fst (sendFriendRequest server username w) = Ok res /\ result_object res).
Proof.
  split; [apply read_never_throws; reflexivity|].
  split; [apply read_never_throws; reflexivity|].
  split; [intros; apply read_never_throws; reflexivity|].
  split; [intros; apply read_never_throws; reflexivity|].
  split; [intros updatedData; revert w;
          change (fulfils result_object (updateProfile server updatedData));
          unfold updateProfile; fulfils_write|].
  split; [intros hobbyName; revert w;
          change (fulfils result_object (addHobby server hobbyName));
          unfold addHobby; fulfils_write|].
  split; [intros hobbyId; revert w;
          change (fulfils result_object (addExistingHobbyToProfile server hobbyId));
          unfold addExistingHobbyToProfile, post_hobby_id; fulfils_write|].
  split; [intros hobbyId; revert w;
          change (fulfils result_object (deleteHobbyFromProfile server hobbyId));
          unfold deleteHobbyFromProfile, post_hobby_id; fulfils_write|].
  intros username; revert w.
  change (fulfils result_object (sendFriendRequest server username)).
  unfold sendFriendRequest; fulfils_write.
Qed.

End Fulfilment.


(** ** The reads *)

Section Reads.

Context {ServerState : Type}.
Variable server : ServerState -> Request -> FetchOutcome * ServerState.

Local Abbreviation World := (@World ServerState).

Ltac run_to_end :=
  cbn;
  unfold answered, logged, console_error, location_assign, emit, modify,
    ret, throw, lift, json;
  cbn; rewrite <- ?app_assoc; cbn; try reflexivity.

Lemma fetchUserProfile_run
  (w : World) (out : FetchOutcome) (st' : ServerState) :
  server (server_state w) (get_request "/api/profile/") = (out, st') ->
  exists es,
    fetchUserProfile server w =
      (Ok tt,
       {| store := match profile_document out with
                   | Some d => with_userData d (store w)
                   | None => store w
                   end;
          document_cookie := document_cookie w;
          server_state := st';
          log := (log w ++ Fetched (get_request "/api/profile/") out :: es)%list |}) /\
    network_calls es = [] /\
    filter is_navigation es =
      match profile_document out with
      | Some _ => []
      | None => [Navigated "/login/"]
      end.
Proof.
  intros H. unfold fetchUserProfile, try_catch, bind, fetch. rewrite H.
  unfold profile_document.
  destruct out as [r|]; [|eexists [_; _]; repeat split; run_to_end].
  destruct (ok r); cbn.
  - unfold json. destruct (json_body r) as [d|].
    + exists []. repeat split; run_to_end.
    + eexists [_; _]. repeat split; run_to_end.
  - destruct ((status r =? 403)%Z || (status r =? 401)%Z).
    + eexists [_]. repeat split; run_to_end.
    + eexists [_; _]. repeat split; run_to_end.
Qed.

Lemma fetchHobbies_run
  (w : World) (out : FetchOutcome) (st' : ServerState) :
  server (server_state w) (get_request "/api/hobbies/") = (out, st') ->
  exists es,
    fetchHobbies server w =
      (Ok tt,
       {| store := match fetched_property "hobbies" out with
                   | Some hs => with_hobbies hs (store w)
                   | None => store w
                   end;
          document_cookie := document_cookie w;
          server_state := st';
          log := (log w ++ Fetched (get_request "/api/hobbies/") out :: es)%list |}) /\
    match fetched_property "hobbies" out with
    | Some _ => es = []
    | None => exists e, es = [ConsoleError "Error fetching hobbies:" (Some e)]
    end.
Proof.
  intros H. unfold fetchHobbies, try_catch, bind, fetch. rewrite H.
  unfold fetched_property.
  destruct out as [r|]; [|eexists; split; [run_to_end | eauto]].
  destruct (ok r); cbn; [|eexists; split; [run_to_end | eauto]].
  unfold json. destruct (json_body r) as [data|]; [|eexists; split; [run_to_end | eauto]].
  destruct data; cbn; eexists; (split; [run_to_end | eauto]).
Qed.

(** X4.  [fetchUserProfile] ends in one of two ways, whatever the server
    does.  When the GET brings a document (2xx, JSON body), [userData] is
    that document, nothing else changes and the page stays.  In every other
    case (401 and 403, any other status outside 200-299, no response, a body
    that is no JSON) the state is as it was and the browser is sent to
    ['/login/'] exactly once. *)
Theorem fetchUserProfile_document_or_login
  (w : World) (out : FetchOutcome) (st' : ServerState) :
  server (server_state w) (get_request "/api/profile/") = (out, st') ->
  exists es,
    fetchUserProfile server w =
      (Ok tt,
       {| store := match profile_document out with
                   | Some d => with_userData d (store w)
                   | None => store w
                   end;
          document_cookie := document_cookie w;
          server_state := st';
          log := (log w ++ Fetched (get_request "/api/profile/") out :: es)%list |}) /\
    network_calls es = [] /\
    filter is_navigation es =
      match profile_document out with
      | Some _ => []
      | None => [Navigated "/login/"]
      end.
Proof. exact (fetchUserProfile_run w out st'). Qed.

(** X5.  [fetchHobbies] replaces [hobbies] by the [hobbies] property of the
    body of a 2xx response, whatever that property is ([undefined] when the
    body has none: the response is not validated), and touches nothing
    else.  In every other case, a 2xx response with body [null] included,
    the state is as it was and the error is logged. *)
Theorem fetchHobbies_property_or_nothing
  (w : World) (out : FetchOutcome) (st' : ServerState) :
  server (server_state w) (get_request "/api/hobbies/") = (out, st') ->
  exists es,
    fetchHobbies server w =
      (Ok tt,
       {| store := match fetched_property "hobbies" out with
                   | Some hs => with_hobbies hs (store w)
                   | None => store w
                   end;
          document_cookie := document_cookie w;
          server_state := st';
          log := (log w ++ Fetched (get_request "/api/hobbies/") out :: es)%list |}) /\
    match fetched_property "hobbies" out with
    | Some _ => es = []
    | None => exists e, es = [ConsoleError "Error fetching hobbies:" (Some e)]
    end.
Proof. exact (fetchHobbies_run w out st'). Qed.

(** X6.  [fetchSimilarUsers] is all or nothing: on a 2xx response whose
    body is JSON and not [null] it replaces [similarUsers], [currentPage]
    and [totalPages] together by the three properties of the body
    ([undefined] for a missing one); in every other case none of the three
    changes.  [userData] and [hobbies] stay in both. *)
Theorem fetchSimilarUsers_all_or_nothing
  (params : FilterParams) (w : World) (out : FetchOutcome) (st' : ServerState) :
  server (server_state w) (get_request (similar_users_url params)) = (out, st') ->
  exists es,
    fetchSimilarUsers server params w =
      (Ok tt,
       {| store := match fetched_page out with
                   | Some (users, pg, total) =>
                       {| userData := userData (store w);
                          similarUsers := users;
                          currentPage := pg;
                          totalPages := total;
                          hobbies := hobbies (store w) |}
                   | None => store w
                   end;
          document_cookie := document_cookie w;
          server_state := st';
          log := (log w ++ Fetched (get_request (similar_users_url params)) out :: es)%list |}) /\
    match fetched_page out with
    | Some _ => es = []
    | None => exists e, es = [ConsoleError "Error fetching similar users:" (Some e)]
    end.
Proof.
  intros H. unfold fetchSimilarUsers, try_catch, bind, fetch. rewrite H.
  unfold fetched_page, fetched_property.
  destruct out as [r|]; [|eexists; split; [run_to_end | eauto]].
  destruct (ok r); cbn; [|eexists; split; [run_to_end | eauto]].
  unfold json. destruct (json_body r) as [data|]; [|eexists; split; [run_to_end | eauto]].
  destruct data; cbn; eexists; (split; [run_to_end | eauto]).
Qed.

End Reads.

(** ** The writes *)

(** [raw_id hobby]: what the callback of [map] returns for an item that is
    neither [null] nor [undefined]. *)
Lemma hobby_id_defined (hobby : JSValue) :
  nullish hobby = false ->
  exists v, hobby_id hobby = Ok v /\
            sent_hobby hobby = match v with
                               | JUndefined => JNull
                               | _ => JSON_stringify v
                               end.
Proof.
  destruct hobby; cbn [nullish hobby_id get_prop sent_hobby]; try discriminate;
    intros _; eexists; (split; [reflexivity|]); try reflexivity.
  destruct (lookup "id" props); reflexivity.
Qed.

Lemma array_map_hobby_id_defined (items : list JSValue) :
  forallb (fun x => negb (nullish x)) items = true ->
  exists ids,
    array_map hobby_id items = Ok ids /\
    JSON_stringify (JArr ids) = JArr (map sent_hobby items).
Proof.
  induction items as [|x items IH]; cbn [forallb array_map map]; intros H.
  - exists []. split; reflexivity.
  - apply andb_true_iff in H. destruct H as [Hx Hitems].
    apply negb_true_iff in Hx.
    destruct (hobby_id_defined x Hx) as (v & Hv & Hs).
    destruct (IH Hitems) as (ids & Hids & Hjson).
    exists (v :: ids). rewrite Hv, Hids. split; [reflexivity|].
    cbn [JSON_stringify map] in Hjson |- *. inversion Hjson as [Hmap].
    rewrite Hmap, Hs. reflexivity.
Qed.

Lemma array_map_hobby_id_nullish (items : list JSValue) :
  forallb (fun x => negb (nullish x)) items = false ->
  array_map hobby_id items = Throw TypeError_.
Proof.
  induction items as [|x items IH]; cbn [forallb array_map]; intros H;
    [discriminate|].
  destruct (nullish x) eqn:Hx.
  - destruct x; cbn in Hx; try discriminate; reflexivity.
  - destruct (hobby_id_defined x Hx) as (v & Hv & _). rewrite Hv.
    cbn in H. now rewrite (IH H).
Qed.

Lemma format_hobbies_unformattable (hs : JSValue) :
  hobbies_formattable hs = false -> format_hobbies hs = Throw TypeError_.
Proof.
  destruct hs; cbn; try discriminate; try reflexivity.
  intros H. now rewrite (array_map_hobby_id_nullish _ H).
Qed.

Lemma format_hobbies_formattable (hs : JSValue) :
  hobbies_formattable hs = true -> exists ids, format_hobbies hs = Ok ids.
Proof.
  destruct hs; cbn; try discriminate; eauto.
  intros H. destruct (array_map_hobby_id_defined _ H) as (ids & -> & _). eauto.
Qed.

Lemma lookup_json_entries (k : string) (props : JSObject) :
  lookup k props <> JUndefined ->
  lookup k (json_entries props) = JSON_stringify (lookup k props).
Proof.
  induction props as [|[k' x] ps IH]; cbn [lookup]; [congruence|].
  rewrite json_entries_cons.
  destruct (String.eqb_spec k k') as [<-|Hk].
  - intros Hx. destruct x; try congruence; cbn [lookup]; now rewrite String.eqb_refl.
  - intros H. destruct x; try (now apply IH); cbn [lookup];
      (destruct (String.eqb_spec k k'); [congruence | now apply IH]).
Qed.

Lemma lookup_obj_set_other (k k' : string) (v : JSValue) (props : JSObject) :
  k <> k' -> lookup k (obj_set k' v props) = lookup k props.
Proof.
  intros Hk. induction props as [|[k0 x] ps IH]; cbn [obj_set lookup].
  - destruct (String.eqb_spec k k'); [congruence | reflexivity].
  - destruct (String.eqb_spec k' k0) as [->|Hk0]; cbn [lookup].
    + destruct (String.eqb_spec k k0); [congruence | reflexivity].
    + destruct (String.eqb_spec k k0); [reflexivity | exact IH].
Qed.

Lemma json_entries_keys (k : string) (props : JSObject) :
  In k (map fst (json_entries props)) -> In k (map fst props).
Proof.
  induction props as [|[k' x] ps IH]; [auto|].
  rewrite json_entries_cons. cbn [map fst In].
  destruct x; cbn [map fst In]; intuition.
Qed.

Lemma json_entries_unset (k : string) (props : JSObject) :
  NoDup (map fst props) ->
  ~ In k (map fst (json_entries (obj_set k JUndefined props))).
Proof.
  induction props as [|[k' x] ps IH]; cbn [obj_set map fst]; intros Hnd.
  - rewrite json_entries_cons. cbn. auto.
  - inversion Hnd as [|? ? Hnotin Hnd']; subst.
    destruct (String.eqb_spec k k') as [<-|Hk].
    + rewrite json_entries_cons. intros H. apply Hnotin.
      now apply json_entries_keys.
    + rewrite json_entries_cons. specialize (IH Hnd').
      destruct x; cbn [map fst In]; intuition.
Qed.

Section Writes.

Context {ServerState : Type}.
Variable server : ServerState -> Request -> FetchOutcome * ServerState.

Local Abbreviation World := (@World ServerState).

Ltac run_to_end :=
  cbn;
  unfold answered, logged, console_error, location_assign, emit, modify,
    ret, throw, lift, json;
  cbn; rewrite <- ?app_assoc; cbn; try reflexivity.

(** With a token and hobbies that can be formatted, the first thing
    [updateProfile] does is its PUT. *)
Lemma updateProfile_first_request
  (w : World) (token : string) (updatedData : JSObject) (ids : JSValue) :
  getCookie (document_cookie w) "csrftoken" = Some token ->
  format_hobbies (lookup "hobbies" updatedData) = Ok ids ->
  exists out rest,
    log (snd (updateProfile server updatedData w)) =
      (log w ++ Fetched (json_request PUT "/api/profile/" token
                           (JObj (obj_set "hobbies" ids updatedData))) out :: rest)%list.
Proof.
  intros Htok Hfmt.
  destruct (read_cookie_token _ _ Htok) as [R (c & t & ->)].
  set (req := json_request PUT "/api/profile/" (String c t)
                (JObj (obj_set "hobbies" ids updatedData))).
  unfold updateProfile, try_catch, bind. rewrite R. unfold lift. rewrite Hfmt.
  fold req. unfold fetch at 1.
  destruct (server (server_state w) req) as [[r|] st1].
  2: { exists Rejected. eexists. run_to_end. }
  exists (Resolved r). destruct (ok r); cbn.
  - unfold fetchUserProfile, try_catch, bind, fetch. cbn.
    destruct (server st1 (get_request "/api/profile/")) as [[r2|] st2]; cbn.
    2: { eexists. run_to_end. }
    destruct (ok r2); cbn.
    + unfold json. destruct (json_body r2); eexists; run_to_end.
    + destruct ((status r2 =? 403)%Z || (status r2 =? 401)%Z); eexists; run_to_end.
  - unfold json. destruct (json_body r) as [d|]; [|eexists; run_to_end].
    destruct d; eexists; run_to_end.
Qed.

(** X7.  An [updateProfile] whose PUT is answered outside 200-299 makes no
    refetch, leaves the state as it was and returns [{success: false,
    error}], where [error] is [new Error(body.errors)] when the body has a
    truthy [errors], [new Error('Failed to update profile')] when it has a
    falsy one, and the rejection of [response.json()] when the body is no
    JSON. *)
Theorem updateProfile_refused
  (w : World) (token : string) (updatedData : JSObject) (ids : JSValue)
  (r : Response) (st' : ServerState) :
  getCookie (document_cookie w) "csrftoken" = Some token ->
  format_hobbies (lookup "hobbies" updatedData) = Ok ids ->
  server (server_state w)
    (json_request PUT "/api/profile/" token (JObj (obj_set "hobbies" ids updatedData)))
    = (Resolved r, st') ->
  ok r = false ->
  exists e,
    updateProfile server updatedData w =
      (Ok (failed (ErrThrown e)),
       answered st'
         [Fetched (json_request PUT "/api/profile/" token
                     (JObj (obj_set "hobbies" ids updatedData))) (Resolved r);
          ConsoleError "Error updating profile:" (Some e)] w) /\
    (forall data errors,
       json_body r = Some data -> get_prop data "errors" = Ok errors ->
       e = Error_ (if truthy errors then errors else JStr "Failed to update profile")) /\
    (json_body r = None -> e = JsonRejected).
Proof.
  intros Htok Hfmt Hput Hok.
  destruct (read_cookie_token _ _ Htok) as [R (c & t & ->)].
  unfold updateProfile, try_catch, bind. rewrite R. unfold lift. rewrite Hfmt.
  rewrite (fetch_resolved _ _ _ _ _ Hput), Hok. cbn.
  unfold json. destruct (json_body r) as [data|]; cbn.
  - destruct (get_prop data "errors") as [errors|e0] eqn:He; cbn.
    + eexists. split; [run_to_end|]. split; [|discriminate].
      intros d es Hd Hes. inversion Hd; subst d. rewrite He in Hes.
      inversion Hes; subst. reflexivity.
    + eexists. split; [run_to_end|]. split; [|discriminate].
      intros d es Hd Hes. inversion Hd; subst d. congruence.
  - eexists. split; [run_to_end|]. split; [discriminate | reflexivity].
Qed.

(** X8.  When the [hobbies] of the input cannot be formatted (a value that
    is neither an array nor [null] nor [undefined], or an array with a
    [null] or [undefined] item), [updateProfile] sends nothing: the
    [TypeError] is caught, logged and returned, and the state is as it
    was. *)
Theorem updateProfile_unformattable
  (w : World) (token : string) (updatedData : JSObject) :
  getCookie (document_cookie w) "csrftoken" = Some token ->
  hobbies_formattable (lookup "hobbies" updatedData) = false ->
  updateProfile server updatedData w =
    (Ok (failed (ErrThrown TypeError_)),
     logged [ConsoleError "Error updating profile:" (Some TypeError_)] w).
Proof.
  intros Htok Hbad.
  destruct (read_cookie_token _ _ Htok) as [R (c & t & ->)].
  unfold updateProfile, try_catch, bind. rewrite R. unfold lift.
  rewrite (format_hobbies_unformattable _ Hbad). reflexivity.
Qed.

(** X9.  For any array of hobbies without [null] and [undefined] items, the
    body of the PUT has for [hobbies] the array of the same length in which
    a number stays, an object gives its [id], and an item whose [id] is
    [undefined] (an object without [id], a string, a boolean, an array)
    gives [null]. *)
Theorem updateProfile_sends_each_hobby
  (w : World) (token : string) (updatedData : JSObject) (items : list JSValue) :
  getCookie (document_cookie w) "csrftoken" = Some token ->
  lookup "hobbies" updatedData = JArr items ->
  forallb (fun x => negb (nullish x)) items = true ->
  exists req out rest sent,
    log (snd (updateProfile server updatedData w)) =
      (log w ++ Fetched req out :: rest)%list /\
    method req = PUT /\
    body req = Some (JObj sent) /\
    lookup "hobbies" sent = JArr (map sent_hobby items).
Proof.
  intros Htok Hhs Hitems.
  destruct (array_map_hobby_id_defined _ Hitems) as (ids & Hids & Hjson).
  assert (Hfmt : format_hobbies (lookup "hobbies" updatedData) = Ok (JArr ids)).
  { rewrite Hhs. cbn. now rewrite Hids. }
  destruct (updateProfile_first_request w token updatedData _ Htok Hfmt)
    as (out & rest & Hlog).
  eexists _, out, rest, _. split; [exact Hlog|]. split; [reflexivity|].
  split; [reflexivity|].
  rewrite lookup_sent_property by discriminate. exact Hjson.
Qed.

(** X10.  The PUT of [updateProfile] carries every other field of the input
    as it is: a property other than [hobbies] whose value is not
    [undefined] is in the body with the same (serialised) value. *)
Theorem updateProfile_sends_other_fields
  (w : World) (token : string) (updatedData : JSObject) :
  getCookie (document_cookie w) "csrftoken" = Some token ->
  hobbies_formattable (lookup "hobbies" updatedData) = true ->
  exists req out rest sent,
    log (snd (updateProfile server updatedData w)) =
      (log w ++ Fetched req out :: rest)%list /\
    method req = PUT /\
    body req = Some (JObj sent) /\
    forall k, k <> "hobbies" -> lookup k updatedData <> JUndefined ->
      lookup k sent = JSON_stringify (lookup k updatedData).
Proof.
  intros Htok Hok.
  destruct (format_hobbies_formattable _ Hok) as (ids & Hfmt).
  destruct (updateProfile_first_request w token updatedData _ Htok Hfmt)
    as (out & rest & Hlog).
  eexists _, out, rest, _. split; [exact Hlog|]. split; [reflexivity|].
  split; [reflexivity|].
  intros k Hk Hv.
  rewrite lookup_json_entries; rewrite lookup_obj_set_other by exact Hk;
    [reflexivity | exact Hv].
Qed.

(** X11.  When the input has no [hobbies], or has [hobbies: null], the body
    of the PUT has no [hobbies] property at all: the optional call gives
    [undefined], which [JSON.stringify] leaves out. *)
Theorem updateProfile_omits_missing_hobbies
  (w : World) (token : string) (updatedData : JSObject) :
  getCookie (document_cookie w) "csrftoken" = Some token ->
  NoDup (map fst updatedData) ->
  nullish (lookup "hobbies" updatedData) = true ->
  exists req out rest sent,
    log (snd (updateProfile server updatedData w)) =
      (log w ++ Fetched req out :: rest)%list /\
    method req = PUT /\
    body req = Some (JObj sent) /\
    ~ In "hobbies" (map fst sent).
Proof.
  intros Htok Hnd Hnull.
  assert (Hfmt : format_hobbies (lookup "hobbies" updatedData) = Ok JUndefined).
  { destruct (lookup "hobbies" updatedData); cbn in Hnull; try discriminate; reflexivity. }
  destruct (updateProfile_first_request w token updatedData _ Htok Hfmt)
    as (out & rest & Hlog).
  eexists _, out, rest, _. split; [exact Hlog|]. split; [reflexivity|].
  split; [reflexivity|]. now apply json_entries_unset.
Qed.

End Writes.

Section HobbyWrites.

Context {ServerState : Type}.
Variable server : ServerState -> Request -> FetchOutcome * ServerState.

Local Abbreviation World := (@World ServerState).

Ltac run_to_end :=
  cbn;
  unfold answered, logged, console_error, location_assign, emit, modify,
    ret, throw, lift, json;
  cbn; rewrite <- ?app_assoc; cbn; try reflexivity.

(** X12.  When the server answers [addHobby] with HTTP 2xx and [status:
    'success'], the action then reads [GET /api/hobbies/] and returns
    [{success: true, hobby}] with the [hobby] of the first response,
    whether or not the second request succeeds.  When the GET is answered
    2xx with a JSON body other than [null], [hobbies] becomes the [hobbies]
    property of that body, whatever it is ([undefined] when the body has
    none); otherwise [hobbies] is left as it was. *)
Theorem addHobby_created
  (w : World) (token hobbyName : string) (r : Response) (st1 : ServerState)
  (data : JSValue) (out2 : FetchOutcome) (st2 : ServerState) :
  getCookie (document_cookie w) "csrftoken" = Some token ->
  server (server_state w)
    {| url := "/api/hobbies/";
       method := POST;
       credentials_include := true;
       headers := [("Content-Type", "application/json"); ("X-CSRFToken", token)];
       body := Some (JObj [("name", JStr hobbyName)]) |}
    = (Resolved r, st1) ->
  (200 <= status r <= 299)%Z ->
  json_body r = Some data ->
  get_prop data "status" = Ok (JStr "success") ->
  server st1 {| url := "/api/hobbies/"; method := GET; credentials_include := true;
                headers := []; body := None |} = (out2, st2) ->
  exists h es,
    get_prop data "hobby" = Ok h /\
    (forall props H, data = JObj props -> has_field props "hobby" H -> h = H) /\
    addHobby server hobbyName w =
      (Ok {| success := true; error := None; hobby := Some h |},
       {| store := match fetched_property "hobbies" out2 with
                   | Some hs =>
                       {| userData := userData (store w);
                          similarUsers := similarUsers (store w);
                          currentPage := currentPage (store w);
                          totalPages := totalPages (store w);
                          hobbies := hs |}
                   | None => store w
                   end;
          document_cookie := document_cookie w;
          server_state := st2;
          log := (log w ++
                  Fetched {| url := "/api/hobbies/";
                             method := POST;
                             credentials_include := true;
                             headers := [("Content-Type", "application/json");
                                         ("X-CSRFToken", token)];
                             body := Some (JObj [("name", JStr hobbyName)]) |}
                    (Resolved r)
                  :: Fetched {| url := "/api/hobbies/"; method := GET;
                                credentials_include := true;
                                headers := []; body := None |} out2
                  :: es)%list |}) /\
    (forall req out, ~ In (Fetched req out) es) /\
    (forall props hs,
       out2 = Resolved {| status := 200; json_body := Some (JObj props) |} ->
       has_field props "hobbies" hs -> fetched_property "hobbies" out2 = Some hs) /\
    (forall props,
       out2 = Resolved {| status := 200; json_body := Some (JObj props) |} ->
       ~ In "hobbies" (map fst props) ->
       fetched_property "hobbies" out2 = Some JUndefined) /\
    (out2 = Rejected -> fetched_property "hobbies" out2 = None).
Proof.
  intros Htok Hpost Hstatus Hbody Hst Hget. apply status_2xx_ok in Hstatus.
  rename Hstatus into Hok.
  destruct (read_cookie_token _ _ Htok) as [R (c & t & ->)].
  assert (Hh : exists h, get_prop data "hobby" = Ok h).
  { destruct data; cbn in Hst; try discriminate; cbn; eauto. }
  destruct Hh as [h Hh].
  set (req := json_request POST "/api/hobbies/" (String c t)
                (JObj [("name", JStr hobbyName)])) in *.
  set (w1 := answered st1 [Fetched req (Resolved r)] w).
  destruct (fetchHobbies_run server w1 out2 st2 Hget) as (es & Hrun & Hes).
  exists h, es. split; [exact Hh|].
  split.
  { intros props H -> Hf. cbn in Hh. inversion Hh; subst h.
    now apply lookup_has_field. }
  split.
  - assert (Hpost' : server (server_state w) req = (Resolved r, st1)) by exact Hpost.
    unfold addHobby, try_catch, bind. rewrite R. fold req.
    rewrite (fetch_resolved _ _ _ _ _ Hpost'), Hok. cbn [negb].
    unfold json. rewrite Hbody. unfold ret at 1. unfold lift at 1. rewrite Hst.
    cbn [is_success String.eqb Ascii.eqb Bool.eqb].
    fold w1. rewrite Hrun. unfold lift. rewrite Hh. unfold ret.
    subst w1 req. cbn. rewrite <- app_assoc.
    destruct (fetched_property "hobbies" out2); reflexivity.
  - split.
    { intros req' out' Hin. destruct (fetched_property "hobbies" out2).
      - subst es. exact Hin.
      - destruct Hes as [e ->]. destruct Hin as [E|[]]. discriminate. }
    split.
    { intros props hs -> Hf. cbn. now rewrite (lookup_has_field _ _ _ Hf). }
    split.
    { intros props -> Hno. cbn. now rewrite (lookup_no_field _ _ Hno). }
    intros ->. reflexivity.
Qed.

(** X13.  When the server answers a POST of the store outside 200-299, the
    action does not read the body: it makes no further request, leaves the
    state as it was and returns [{success: false, error}] with the fixed
    message of the action. *)
Theorem post_refused
  (w : World) (token : string) (r : Response) (st' : ServerState) :
  getCookie (document_cookie w) "csrftoken" = Some token ->
  ok r = false ->
  (forall hobbyName,
     let req := json_request POST "/api/hobbies/" token
                  (JObj [("name", JStr hobbyName)]) in
     let e := Error_ (JStr "Failed to add hobby") in
     server (server_state w) req = (Resolved r, st') ->
     addHobby server hobbyName w =
       (Ok (failed (ErrThrown e)),
        answered st' [Fetched req (Resolved r);
                      ConsoleError "Error adding hobby:" (Some e)] w)) /\
  (forall hobbyId,
     let req := json_request POST "/api/profile/add_hobby" token
                  (JObj [("hobby_id", JNum hobbyId)]) in
     let e := Error_ (JStr "Failed to add hobby to profile") in
     server (server_state w) req = (Resolved r, st') ->
     addExistingHobbyToProfile server hobbyId w =
       (Ok (failed (ErrThrown e)),
        answered st' [Fetched req (Resolved r);
                      ConsoleError "Error adding hobby to profile:" (Some e)] w)) /\
  (forall hobbyId,
     let req := json_request POST "/api/profile/delete_hobby" token
                  (JObj [("hobby_id", JNum hobbyId)]) in
     let e := Error_ (JStr "Failed to delete hobby from profile") in
     server (server_state w) req = (Resolved r, st') ->
     deleteHobbyFromProfile server hobbyId w =
       (Ok (failed (ErrThrown e)),
        answered st' [Fetched req (Resolved r);
                      ConsoleError "Error deleting hobby from profile:" (Some e)] w)) /\
  (forall username,
     let req := json_request POST "/api/send_request/" token
                  (JObj [("username", JStr username)]) in
     let e := Error_ (JStr "Failed to send friend request") in
     server (server_state w) req = (Resolved r, st') ->
     sendFriendRequest server username w =
       (Ok (failed (ErrThrown e)),
        answered st' [Fetched req (Resolved r);
                      ConsoleError "Error sending friend request:" (Some e)] w)).
Proof.
  intros Htok Hok.
  destruct (read_cookie_token _ _ Htok) as [R (c & t & ->)].
  repeat split; intros; subst req e;
    unfold addHobby, addExistingHobbyToProfile, deleteHobbyFromProfile,
      post_hobby_id, sendFriendRequest, try_catch, bind;
    rewrite R;
    match goal with H : server _ _ = _ |- _ => rewrite (fetch_resolved _ _ _ _ _ H) end;
    rewrite Hok; run_to_end.
Qed.

(** X14.  With a token, [sendFriendRequest] makes one request and succeeds
    exactly when the response has a status in 200-299; the body of the
    response is never read. *)
Theorem sendFriendRequest_succeeds_iff_ok
  (w : World) (token username : string) (out : FetchOutcome) (st' : ServerState) :
  getCookie (document_cookie w) "csrftoken" = Some token ->
  server (server_state w)
    (json_request POST "/api/send_request/" token (JObj [("username", JStr username)]))
    = (out, st') ->
  exists result es,
    sendFriendRequest server username w =
      (Ok result,
       answered st'
         (Fetched (json_request POST "/api/send_request/" token
                     (JObj [("username", JStr username)])) out :: es) w) /\
    network_calls es = [] /\
    (result = succeeded <-> exists r, out = Resolved r /\ ok r = true).
Proof.
  intros Htok Hreq.
  destruct (read_cookie_token _ _ Htok) as [R (c & t & ->)].
  unfold sendFriendRequest, try_catch, bind. rewrite R. unfold fetch. rewrite Hreq.
  destruct out as [r|].
  - destruct (ok r) eqn:Hok; cbn.
    + exists succeeded, []. split; [run_to_end|]. split; [reflexivity|].
      split; [eauto | reflexivity].
    + eexists _, [_]. split; [run_to_end|]. split; [reflexivity|].
      split; [discriminate|]. intros (r' & E & Hok'). inversion E; subst. congruence.
  - eexists _, [_]. split; [run_to_end|]. split; [reflexivity|].
    split; [discriminate|]. intros (r' & E & _). discriminate.
Qed.

(** The run of [fetchUserProfile] from any world in which the server is in
    a given state. *)
Lemma fetchUserProfile_run_from
  (st : ServerState) (out : FetchOutcome) (st' : ServerState) :
  server st (get_request "/api/profile/") = (out, st') ->
  exists es,
    network_calls es = [] /\
    filter is_navigation es =
      match profile_document out with
      | Some _ => []
      | None => [Navigated "/login/"]
      end /\
    forall w : World,
      server_state w = st ->
      fetchUserProfile server w =
        (Ok tt,
         {| store := match profile_document out with
                     | Some d => with_userData d (store w)
                     | None => store w
                     end;
            document_cookie := document_cookie w;
            server_state := st';
            log := (log w ++ Fetched (get_request "/api/profile/") out :: es)%list |}).
Proof.
  intros H.
  unfold profile_document.
  destruct out as [r|].
  - destruct (ok r) eqn:Hok.
    + destruct (json_body r) as [d|] eqn:Hbody.
      * exists []. repeat split. intros w <-.
        unfold fetchUserProfile, try_catch, bind, fetch. rewrite H, Hok. cbn.
        unfold json. rewrite Hbody. run_to_end.
      * exists [ConsoleError "Error fetching profile:" (Some JsonRejected);
                Navigated "/login/"].
        split; [reflexivity|]. split; [reflexivity|]. intros w <-.
        unfold fetchUserProfile, try_catch, bind, fetch. rewrite H, Hok. cbn.
        unfold json. rewrite Hbody. run_to_end.
    + destruct ((status r =? 403)%Z || (status r =? 401)%Z) eqn:Hst.
      * exists [Navigated "/login/"].
        split; [reflexivity|]. split; [reflexivity|]. intros w <-.
        unfold fetchUserProfile, try_catch, bind, fetch. rewrite H, Hok. cbn.
        rewrite Hst. run_to_end.
      * exists [ConsoleError "Error fetching profile:"
                  (Some (Error_ (JStr "Network response was not ok")));
                Navigated "/login/"].
        split; [reflexivity|]. split; [reflexivity|]. intros w <-.
        unfold fetchUserProfile, try_catch, bind, fetch. rewrite H, Hok. cbn.
        rewrite Hst. run_to_end.
  - exists [ConsoleError "Error fetching profile:" (Some FetchRejected);
            Navigated "/login/"].
    split; [reflexivity|]. split; [reflexivity|]. intros w <-.
    unfold fetchUserProfile, try_catch, bind, fetch. rewrite H. run_to_end.
Qed.

(** X15.  When the server answers [addExistingHobbyToProfile] or
    [deleteHobbyFromProfile] with HTTP 2xx and [status: 'success'], the
    action reads [GET /api/profile/] and returns [{success: true}] whether
    or not that read succeeds: [userData] is the document read when there
    is one, and otherwise the state is as it was and the browser is sent
    to ['/login/']. *)
Theorem hobby_link_refetches
  (w : World) (token : string) (r : Response) (st1 : ServerState)
  (data : JSValue) (out2 : FetchOutcome) (st2 : ServerState) :
  getCookie (document_cookie w) "csrftoken" = Some token ->
  ok r = true ->
  json_body r = Some data ->
  get_prop data "status" = Ok (JStr "success") ->
  server st1 (get_request "/api/profile/") = (out2, st2) ->
  exists es,
    network_calls es = [] /\
    filter is_navigation es =
      match profile_document out2 with
      | Some _ => []
      | None => [Navigated "/login/"]
      end /\
    (forall hobbyId,
       let req := json_request POST "/api/profile/add_hobby" token
                    (JObj [("hobby_id", JNum hobbyId)]) in
       server (server_state w) req = (Resolved r, st1) ->
       addExistingHobbyToProfile server hobbyId w =
         (Ok succeeded,
          {| store := match profile_document out2 with
                      | Some d => with_userData d (store w)
                      | None => store w
                      end;
             document_cookie := document_cookie w;
             server_state := st2;
             log := (log w ++ Fetched req (Resolved r)
                       :: Fetched (get_request "/api/profile/") out2 :: es)%list |})) /\
    (forall hobbyId,
       let req := json_request POST "/api/profile/delete_hobby" token
                    (JObj [("hobby_id", JNum hobbyId)]) in
       server (server_state w) req = (Resolved r, st1) ->
       deleteHobbyFromProfile server hobbyId w =
         (Ok succeeded,
          {| store := match profile_document out2 with
                      | Some d => with_userData d (store w)
                      | None => store w
                      end;
             document_cookie := document_cookie w;
             server_state := st2;
             log := (log w ++ Fetched req (Resolved r)
                       :: Fetched (get_request "/api/profile/") out2 :: es)%list |})).
Proof.
  intros Htok Hok Hbody Hst Hget.
  destruct (read_cookie_token _ _ Htok) as [R (c & t & ->)].
  destruct (fetchUserProfile_run_from st1 out2 st2 Hget) as (es & Hnet & Hnav & Hrun).
  exists es. split; [exact Hnet|]. split; [exact Hnav|].
  split; intros hobbyId req Hpost; subst req;
    unfold addExistingHobbyToProfile, deleteHobbyFromProfile, post_hobby_id,
      try_catch, bind;
    rewrite R, (fetch_resolved _ _ _ _ _ Hpost), Hok; cbn [negb];
    unfold json; rewrite Hbody; unfold ret at 1; unfold lift at 1; rewrite Hst;
    cbn [is_success String.eqb Ascii.eqb Bool.eqb];
    rewrite Hrun by reflexivity; cbn; rewrite <- app_assoc; reflexivity.
Qed.

End HobbyWrites.

(** ** [getCookie] on the cookie string of a jar *)

Lemma until_semicolon_parts (s : string) :
  exists tail,
    s = until_semicolon s ++ tail /\
    (tail = EmptyString \/ exists t, tail = String ";" t) /\
    no_semicolon (until_semicolon s) = true.
Proof.
  induction s as [|c s (tail & Hs & Htail & Hno)]; cbn [until_semicolon].
  - exists EmptyString. auto.
  - destruct (Ascii.eqb_spec c ";") as [->|Hc].
    + exists (String ";" s). repeat split; eauto.
    + exists tail. cbn [append no_semicolon]. split; [now rewrite <- Hs|].
      split; [exact Htail|].
      rewrite Hno. destruct (Ascii.eqb_spec c ";"); [congruence | reflexivity].
Qed.

(** X16.  A value that [getCookie] returns is never empty and has no [;]:
    it is the text that stands in ["; " + document.cookie] right after the
    delimiter, up to the next [;] or to the end. *)
Theorem getCookie_result_shape (cookie name v : string) :
  getCookie cookie name = Some v ->
  v <> EmptyString /\
  no_semicolon v = true /\
  exists before tail,
    cookie_text cookie = before ++ delimiter name ++ v ++ tail /\
    (tail = EmptyString \/ exists t, tail = String ";" t).
Proof.
  intros H. apply getCookie_some_iff in H.
  destruct H as (rest & (before & Hs & _) & Hv & Hne).
  destruct (until_semicolon_parts rest) as (tail & Hrest & Htail & Hno).
  subst v. split; [exact Hne|]. split; [exact Hno|].
  exists before, tail. split; [|exact Htail].
  rewrite Hs. now rewrite <- Hrest.
Qed.

Lemma starts_with_name (name k r : string) :
  no_equals name = true -> no_equals k = true ->
  Str.starts_with (name ++ "=") (k ++ "=" ++ r) = String.eqb name k.
Proof.
  revert k. induction name as [|a name IH]; intros [|c k] Hn Hk;
    cbn [append Str.starts_with String.eqb no_equals] in *.
  - reflexivity.
  - apply andb_true_iff in Hk. destruct Hk as [Hc _].
    rewrite Ascii.eqb_sym. now apply negb_true_iff in Hc as ->.
  - apply andb_true_iff in Hn. destruct Hn as [Ha _].
    now apply negb_true_iff in Ha as ->.
  - apply andb_true_iff in Hn. destruct Hn as [_ Hn].
    apply andb_true_iff in Hk. destruct Hk as [_ Hk].
    destruct (Ascii.eqb a c); [now apply IH | reflexivity].
Qed.

Lemma cookie_text_jar (kv : string * string) (jar : list (string * string)) :
  cookie_text (cookie_string (kv :: jar)) = jar_text (kv :: jar).
Proof.
  revert kv. induction jar as [|kv' jar IH]; intros [k v].
  - unfold cookie_text. cbn [cookie_string jar_text]. now rewrite append_nil_r.
  - destruct kv' as [k' v'].
    change (jar_text ((k, v) :: (k', v') :: jar))
      with ("; " ++ k ++ "=" ++ v ++ jar_text ((k', v') :: jar)).
    rewrite <- (IH (k', v')).
    change (cookie_string ((k, v) :: (k', v') :: jar))
      with (k ++ "=" ++ v ++ "; " ++ cookie_string ((k', v') :: jar)).
    reflexivity.
Qed.

Lemma jar_text_tail (jar : list (string * string)) :
  jar_text jar = EmptyString \/ exists t, jar_text jar = String ";" t.
Proof. destruct jar as [|[k v] jar]; cbn; eauto. Qed.

Lemma occurrences_cons (sep : string) (c : ascii) (s : string) :
  occurrences sep (String c s) =
  (if Str.starts_with sep (String c s) then 1 else 0) + occurrences sep s.
Proof. reflexivity. Qed.

Lemma occurrences_jar (name : string) (jar : list (string * string)) :
  no_semicolon name = true -> no_equals name = true ->
  forallb fields_ok jar = true ->
  occurrences (delimiter name) (jar_text jar) = count_name name jar.
Proof.
  intros Hns Hne. induction jar as [|[k v] jar IH]; intros Hjar.
  - cbn. reflexivity.
  - cbn [forallb] in Hjar. apply andb_true_iff in Hjar. destruct Hjar as [Hkv Hjar].
    unfold fields_ok in Hkv. cbn [fst snd] in Hkv.
    apply andb_true_iff in Hkv. destruct Hkv as [Hk Hv].
    apply andb_true_iff in Hk. destruct Hk as [Hks Hke].
    specialize (IH Hjar).
    unfold count_name in *. cbn [filter fst].
    change (jar_text ((k, v) :: jar))
      with (String ";" (String " " (k ++ "=" ++ v ++ jar_text jar))).
    rewrite occurrences_cons.
    change (Str.starts_with (delimiter name)
              (String ";" (String " " (k ++ "=" ++ v ++ jar_text jar))))
      with (Str.starts_with (name ++ "=") (k ++ "=" ++ v ++ jar_text jar)).
    rewrite (starts_with_name name k _ Hne Hke).
    assert (Hskip : occurrences (delimiter name)
                      (String " " (k ++ "=" ++ v ++ jar_text jar))
                    = occurrences (delimiter name) (jar_text jar)).
    { replace (String " " (k ++ "=" ++ v ++ jar_text jar))
        with ((String " " (k ++ "=" ++ v)) ++ jar_text jar)
        by (cbn [append]; now rewrite !append_assoc).
      rewrite delimiter_cons.
      apply occurrences_skip. cbn [no_semicolon].
      rewrite !no_semicolon_append, Hks, Hv. reflexivity. }
    rewrite Hskip, IH.
    destruct (String.eqb name k); reflexivity.
Qed.

Lemma count_name_absent (name : string) (jar : list (string * string)) :
  ~ In name (map fst jar) -> count_name name jar = 0.
Proof.
  unfold count_name. induction jar as [|[k v] jar IH]; cbn [map fst In filter];
    intros H; [reflexivity|].
  destruct (String.eqb_spec name k) as [->|_]; [exfalso; auto|].
  apply IH. auto.
Qed.

Lemma distinct_cons (k : string) (names : list string) :
  distinct (k :: names) = true -> ~ In k names /\ distinct names = true.
Proof.
  cbn [distinct]. intros H. apply andb_true_iff in H. destruct H as [Hk Hd].
  split; [|exact Hd]. intros Hin. apply negb_true_iff in Hk.
  assert (existsb (String.eqb k) names = true).
  { apply existsb_exists. exists k. split; [exact Hin | apply String.eqb_refl]. }
  congruence.
Qed.

Lemma count_name_once (name v : string) (jar : list (string * string)) :
  distinct (map fst jar) = true -> In (name, v) jar -> count_name name jar = 1.
Proof.
  induction jar as [|[k v'] jar IH]; cbn [map fst]; intros Hd Hin; [contradiction|].
  apply distinct_cons in Hd. destruct Hd as [Hk Hd].
  unfold count_name in *. cbn [filter fst].
  destruct Hin as [E|Hin].
  - inversion E; subst. rewrite String.eqb_refl. cbn [List.length].
    f_equal. now apply count_name_absent.
  - destruct (String.eqb_spec name k) as [->|_].
    + exfalso. apply Hk. change k with (fst (k, v)). now apply in_map.
    + now apply IH.
Qed.

Lemma jar_text_entry (name v : string) (jar : list (string * string)) :
  In (name, v) jar ->
  exists before tail,
    jar_text jar = before ++ delimiter name ++ v ++ tail /\
    (tail = EmptyString \/ exists t, tail = String ";" t).
Proof.
  induction jar as [|[k v'] jar IH]; intros Hin; [contradiction|].
  destruct Hin as [E|Hin].
  - inversion E; subst. exists EmptyString, (jar_text jar).
    split; [|apply jar_text_tail].
    cbn [jar_text append]. rewrite delimiter_cons. cbn [append].
    repeat (rewrite append_assoc; cbn [append]). reflexivity.
  - destruct (IH Hin) as (before & tail & Hs & Htail).
    exists ("; " ++ k ++ "=" ++ v' ++ before), tail. split; [|exact Htail].
    cbn [jar_text]. rewrite Hs.
    cbn [append]. repeat (rewrite append_assoc; cbn [append]). reflexivity.
Qed.

Lemma until_semicolon_value (v tail : string) :
  no_semicolon v = true ->
  (tail = EmptyString \/ exists t, tail = String ";" t) ->
  until_semicolon (v ++ tail) = v.
Proof.
  intros Hv Htail. induction v as [|c v IH]; cbn [append until_semicolon].
  - destruct Htail as [->|[t ->]]; reflexivity.
  - cbn [no_semicolon] in Hv. apply andb_true_iff in Hv. destruct Hv as [Hc Hv].
    apply negb_true_iff in Hc. rewrite Hc. now rewrite IH.
Qed.

Lemma jar_keys_ok (name v : string) (jar : list (string * string)) :
  forallb fields_ok jar = true -> In (name, v) jar ->
  no_semicolon name = true /\ no_equals name = true /\ no_semicolon v = true.
Proof.
  intros H Hin. rewrite forallb_forall in H. specialize (H _ Hin).
  unfold fields_ok in H. cbn [fst snd] in H.
  apply andb_true_iff in H. destruct H as [H Hv].
  apply andb_true_iff in H. destruct H as [Hs He]. auto.
Qed.

(** X17.  Round trip through the cookie string.  For a jar of cookies whose
    names have no [;] and [=], whose values have no [;] and where no name
    comes twice, [getCookie] on the jar's cookie string returns the value
    of each cookie of the jar, except that an empty value reads as [null];
    and it returns [null] for every name (without [;] and [=]) that the jar
    does not hold, also when that name is the end of a longer one. *)
Theorem getCookie_reads_jar (jar : list (string * string)) :
  jar_ok jar = true ->
  (forall name v, In (name, v) jar ->
     getCookie (cookie_string jar) name = or_null (Some v)) /\
  (forall name, no_semicolon name = true -> no_equals name = true ->
     ~ In name (map fst jar) ->
     getCookie (cookie_string jar) name = None).
Proof.
  intros Hjar. unfold jar_ok in Hjar. apply andb_true_iff in Hjar.
  destruct Hjar as [Hfields Hdistinct]. split.
  - intros name v Hin.
    destruct (jar_keys_ok _ _ _ Hfields Hin) as (Hns & Hne & Hv).
    destruct jar as [|kv jar']; [contradiction|].
    set (jar := kv :: jar') in *.
    assert (Hone : occurrences (delimiter name) (cookie_text (cookie_string jar)) = 1).
    { unfold jar. rewrite cookie_text_jar. fold jar.
      rewrite (occurrences_jar _ _ Hns Hne Hfields).
      now apply (count_name_once name v). }
    destruct (jar_text_entry _ _ _ Hin) as (before & tail & Hs & Htail).
    unfold jar in Hs. rewrite <- cookie_text_jar in Hs. fold jar in Hs.
    assert (Hmatch : single_match (delimiter name) (cookie_text (cookie_string jar))
                       (v ++ tail)).
    { apply (single_match_occurrences _ _ _ Hns). split; [exact Hone | now exists before]. }
    destruct (getCookie (cookie_string jar) name) as [v'|] eqn:Hget.
    + apply getCookie_some_iff in Hget.
      destruct Hget as (rest & Hm' & Hv' & Hne').
      assert (Hrest : rest = v ++ tail).
      { destruct Hm' as (b' & Hs' & Hleft' & _).
        destruct Hmatch as (b & Hsb & Hleft & _).
        assert (Hlen : String.length b' = String.length b).
        { apply Nat.le_antisymm.
          - apply Hleft'. exists b, (v ++ tail). auto.
          - apply Hleft. exists b', rest. auto. }
        rewrite Hs' in Hsb.
        destruct (append_inj_length _ _ _ _ Hlen Hsb) as [_ Hr].
        destruct (append_inj_length _ _ _ _ (@eq_refl nat (String.length (delimiter name))) Hr)
          as [_ Hr']. exact Hr'. }
      subst rest. rewrite (until_semicolon_value _ _ Hv Htail) in Hv'. subst v'.
      destruct v; [congruence | reflexivity].
    + destruct v as [|c v]; [reflexivity|]. exfalso.
      assert (Hsome : getCookie (cookie_string jar) name = Some (String c v)).
      { apply getCookie_some_iff. exists (String c v ++ tail).
        split; [exact Hmatch|]. split; [|discriminate].
        symmetry. now apply until_semicolon_value. }
      congruence.
  - intros name Hns Hne Hnot. apply getCookie_absent. unfold cookie_absent.
    apply occurrences_zero.
    destruct jar as [|kv jar'].
    + rewrite delimiter_cons. cbn.
      destruct name; reflexivity.
    + rewrite cookie_text_jar, (occurrences_jar _ _ Hns Hne Hfields).
      now apply count_name_absent.
Qed.

(** ** No request twice *)

Section Requests.

Context {ServerState : Type}.
Variable server : ServerState -> Request -> FetchOutcome * ServerState.

Local Abbreviation World := (@World ServerState).

Lemma sends_quiet {A} (m : @M ServerState A) (a b : nat) :
  (forall w, log (snd (m w)) = log w) -> sends a b m.
Proof.
  intros H w. exists []. rewrite H, app_nil_r. cbn. repeat split; lia.
Qed.

Lemma sends_emit (e : Event) (a b : nat) :
  is_fetch e = false -> sends a b (@emit ServerState e).
Proof.
  intros He w. exists [e]. split; [reflexivity|].
  destruct e; try discriminate; cbn; lia.
Qed.

Lemma sends_bind {A B} (m : @M ServerState A) (k : A -> M B) (a1 b1 a2 b2 : nat) :
  sends a1 b1 m -> (forall x, sends a2 b2 (k x)) -> sends (a1 + a2) (b1 + b2) (bind m k).
Proof.
  intros Hm Hk w. unfold bind.
  destruct (Hm w) as (es1 & Hl1 & Hw1 & Hr1).
  destruct (m w) as [[x|e] w1]; cbn in *.
  - destruct (Hk x w1) as (es2 & Hl2 & Hw2 & Hr2).
    exists (es1 ++ es2)%list. rewrite Hl2, Hl1, app_assoc. split; [reflexivity|].
    rewrite !filter_app, !length_app. lia.
  - exists es1. split; [exact Hl1 | lia].
Qed.

Lemma sends_try_catch {A} (m : @M ServerState A) (handler : JSError -> M A) (a b : nat) :
  sends a b m -> (forall e, sends 0 0 (handler e)) -> sends a b (try_catch m handler).
Proof.
  intros Hm Hh w. unfold try_catch.
  destruct (Hm w) as (es1 & Hl1 & Hw1 & Hr1).
  destruct (m w) as [[x|e] w1]; cbn in *.
  - exists es1. auto.
  - destruct (Hh e w1) as (es2 & Hl2 & Hw2 & Hr2).
    exists (es1 ++ es2)%list. rewrite Hl2, Hl1, app_assoc. split; [reflexivity|].
    rewrite !filter_app, !length_app. lia.
Qed.

Lemma sends_bind_quiet {A B} (m : @M ServerState A) (k : A -> M B) (a b : nat) :
  sends 0 0 m -> (forall x, sends a b (k x)) -> sends a b (bind m k).
Proof. intros Hm Hk. exact (sends_bind m k 0 0 a b Hm Hk). Qed.

Lemma sends_bind_read {A B} (m : @M ServerState A) (k : A -> M B) (a b : nat) :
  sends 0 1 m -> (forall x, sends a b (k x)) -> sends a (S b) (bind m k).
Proof. intros Hm Hk. exact (sends_bind m k 0 1 a b Hm Hk). Qed.

Lemma sends_bind_write {A B} (m : @M ServerState A) (k : A -> M B) (a b : nat) :
  sends 1 0 m -> (forall x, sends a b (k x)) -> sends (S a) b (bind m k).
Proof. intros Hm Hk. exact (sends_bind m k 1 0 a b Hm Hk). Qed.

Lemma sends_get (u : string) : sends 0 1 (fetch server (get_request u)).
Proof.
  intros w. unfold fetch.
  destruct (server (server_state w) (get_request u)) as [[r|] st'];
    eexists [_]; (split; [reflexivity | cbn; lia]).
Qed.

Lemma sends_write (m : Method) (u token : string) (payload : JSValue) :
  m <> GET -> sends 1 0 (fetch server (json_request m u token payload)).
Proof.
  intros Hm w. unfold fetch.
  destruct (server (server_state w) (json_request m u token payload)) as [[r|] st'];
    eexists [_]; (split; [reflexivity|]); destruct m; try congruence; cbn; lia.
Qed.

Ltac sends_step :=
  match goal with
  | |- sends _ _ (try_catch _ _) => apply sends_try_catch; [|intros ?]
  | |- sends _ _ (bind (fetch _ (get_request _)) _) =>
      apply sends_bind_read; [apply sends_get | intros ?]
  | |- sends _ _ (bind (fetch _ (json_request _ _ _ _)) _) =>
      apply sends_bind_write; [apply sends_write; discriminate | intros ?]
  | |- sends _ _ (bind _ _) => apply sends_bind_quiet; [|intros ?]
  | |- sends _ _ (json _) => unfold json
  | |- sends _ _ (console_error _ _) => apply sends_emit; reflexivity
  | |- sends _ _ (location_assign _) => apply sends_emit; reflexivity
  | |- sends _ _ (match ?x with _ => _ end) => destruct x eqn:?
  | |- sends _ _ (if ?b then _ else _) => destruct b eqn:?
  | |- sends _ _ _ => apply sends_quiet; intros; reflexivity
  end.

Lemma sends_fetchUserProfile : sends 0 1 (fetchUserProfile server).
Proof. unfold fetchUserProfile. repeat sends_step. Qed.

Lemma sends_fetchHobbies : sends 0 1 (fetchHobbies server).
Proof. unfold fetchHobbies. repeat sends_step. Qed.

Lemma sends_fetchSimilarUsers (params : FilterParams) :
  sends 0 1 (fetchSimilarUsers server params).
Proof. unfold fetchSimilarUsers. repeat sends_step. Qed.

Ltac sends_action :=
  repeat first
    [ match goal with
      | |- sends _ _ (bind (fetchUserProfile _) _) =>
          apply sends_bind_read; [apply sends_fetchUserProfile | intros ?]
      | |- sends _ _ (bind (fetchHobbies _) _) =>
          apply sends_bind_read; [apply sends_fetchHobbies | intros ?]
      end
    | sends_step ].

Lemma sends_updateProfile (updatedData : JSObject) :
  sends 1 1 (updateProfile server updatedData).
Proof. unfold updateProfile. sends_action. Qed.

Lemma sends_addHobby (hobbyName : string) : sends 1 1 (addHobby server hobbyName).
Proof. unfold addHobby. sends_action. Qed.

Lemma sends_post_hobby_id (endpoint failure_message label : string) (hobbyId : Z) :
  sends 1 1 (post_hobby_id server endpoint failure_message label hobbyId).
Proof. unfold post_hobby_id. sends_action. Qed.

Lemma sends_sendFriendRequest (username : string) :
  sends 1 0 (sendFriendRequest server username).
Proof. unfold sendFriendRequest. sends_action. Qed.

(** X18.  No call sends a request twice (there is no retry): a call of one
    of the four reads sends no write and at most one GET,
    [sendFriendRequest] sends at most one POST and no GET, and every other
    call sends at most one write and at most one GET. *)
Theorem call_sends_each_request_once (c : Call) (w : World) :
  exists es,
    log (snd (call server c w)) = (log w ++ es)%list /\
    List.length (filter is_write es) <= fst (request_budget c) /\
    List.length (filter is_read es) <= snd (request_budget c).
Proof.
  assert (Hres : forall A (m : @M ServerState A) (f : A -> option ActionResult) a b,
             sends a b m -> sends a b (bind m (fun x => ret (f x)))).
  { intros A m f a b Hm.
    replace a with (a + 0) by lia. replace b with (b + 0) by lia.
    apply sends_bind; [exact Hm|]. intros x. apply sends_quiet. reflexivity. }
  revert w. change (sends (fst (request_budget c)) (snd (request_budget c)) (call server c)).
  destruct c; cbn [call request_budget fst snd];
    unfold resolves_undefined, resolves_result, fetchPage,
      addExistingHobbyToProfile, deleteHobbyFromProfile;
    apply Hres;
    first [ apply sends_fetchUserProfile | apply sends_updateProfile | apply sends_addHobby
          | apply sends_post_hobby_id | apply sends_fetchHobbies
          | apply sends_fetchSimilarUsers | apply sends_sendFriendRequest ].
Qed.

End Requests.

(** ** Runs of the further examples *)

Lemma fetchUserProfile_document_or_login_witness :
  healthy_server (server_state signed_in) (get_request "/api/profile/")
    = (Resolved (json_ok ann_renamed), tt) /\
  userData (store (snd (fetchUserProfile healthy_server signed_in))) = ann_renamed /\
  filter is_navigation (log (snd (fetchUserProfile healthy_server signed_in))) = [].
Proof.
  split; [reflexivity|].
  destruct (fetchUserProfile_document_or_login healthy_server signed_in
              (Resolved (json_ok ann_renamed)) tt eq_refl) as (es & Hrun & _ & Hnav).
  rewrite Hrun. cbn in Hnav |- *. rewrite Hnav. split; reflexivity.
Defined.

Lemma fetchHobbies_property_or_nothing_witness :
  hobby_server (server_state signed_in) (get_request "/api/hobbies/")
    = (Resolved (json_ok hobby_list), tt) /\
  hobbies (store (snd (fetchHobbies hobby_server signed_in))) = JArr [Hobby_value chess] /\
  userData (store (snd (fetchHobbies hobby_server signed_in))) = ann.
Proof.
  split; [reflexivity|].
  destruct (fetchHobbies_property_or_nothing hobby_server signed_in
              (Resolved (json_ok hobby_list)) tt eq_refl) as (es & Hrun & _).
  rewrite Hrun. split; reflexivity.
Defined.

Lemma fetchSimilarUsers_all_or_nothing_witness :
  down_server (server_state signed_in) (get_request (similar_users_url page_two_params))
    = (Rejected, tt) /\
  store (snd (fetchSimilarUsers down_server page_two_params signed_in)) = store signed_in.
Proof.
  split; [reflexivity|].
  destruct (fetchSimilarUsers_all_or_nothing down_server page_two_params signed_in
              Rejected tt eq_refl) as (es & Hrun & _).
  rewrite Hrun. reflexivity.
Defined.

Lemma updateProfile_refused_witness :
  getCookie (document_cookie signed_in) "csrftoken" = Some "tok" /\
  format_hobbies (lookup "hobbies" rename) = Ok JUndefined /\
  ok (json_status 400 invalid) = false /\
  fst (updateProfile validating_server rename signed_in) =
    Ok (failed (ErrThrown (Error_ (JStr "Invalid email")))) /\
  store (snd (updateProfile validating_server rename signed_in)) = store signed_in.
Proof.
  split; [reflexivity|]. split; [reflexivity|]. split; [reflexivity|].
  destruct (updateProfile_refused validating_server signed_in "tok" rename JUndefined
              (json_status 400 invalid) tt eq_refl eq_refl eq_refl eq_refl)
    as (e & Hrun & Herr & _).
  rewrite Hrun. rewrite (Herr invalid (JStr "Invalid email") eq_refl eq_refl).
  split; reflexivity.
Defined.

Lemma updateProfile_unformattable_witness :
  getCookie (document_cookie signed_in) "csrftoken" = Some "tok" /\
  hobbies_formattable (lookup "hobbies" hobbies_with_null) = false /\
  updateProfile healthy_server hobbies_with_null signed_in =
    (Ok (failed (ErrThrown TypeError_)),
     logged [ConsoleError "Error updating profile:" (Some TypeError_)] signed_in).
Proof.
  split; [reflexivity|]. split; [reflexivity|].
  exact (updateProfile_unformattable healthy_server signed_in "tok" hobbies_with_null
           eq_refl eq_refl).
Defined.

Lemma updateProfile_sends_each_hobby_witness :
  getCookie (document_cookie signed_in) "csrftoken" = Some "tok" /\
  lookup "hobbies" rename_with_loose_hobbies = JArr loose_hobbies /\
  forallb (fun x => negb (nullish x)) loose_hobbies = true /\
  exists req out rest sent,
    log (snd (updateProfile healthy_server rename_with_loose_hobbies signed_in)) =
      (log signed_in ++ Fetched req out :: rest)%list /\
    method req = PUT /\
    body req = Some (JObj sent) /\
    lookup "hobbies" sent = JArr [JNum 3; JNum 7; JNull; JNull].
Proof.
  split; [reflexivity|]. split; [reflexivity|]. split; [reflexivity|].
  exact (updateProfile_sends_each_hobby healthy_server signed_in "tok"
           rename_with_loose_hobbies loose_hobbies eq_refl eq_refl eq_refl).
Defined.

Lemma updateProfile_sends_other_fields_witness :
  getCookie (document_cookie signed_in) "csrftoken" = Some "tok" /\
  hobbies_formattable (lookup "hobbies" rename_with_hobbies) = true /\
  exists req out rest sent,
    log (snd (updateProfile healthy_server rename_with_hobbies signed_in)) =
      (log signed_in ++ Fetched req out :: rest)%list /\
    method req = PUT /\
    body req = Some (JObj sent) /\
    forall k, k <> "hobbies" -> lookup k rename_with_hobbies <> JUndefined ->
      lookup k sent = JSON_stringify (lookup k rename_with_hobbies).
Proof.
  split; [reflexivity|]. split; [reflexivity|].
  exact (updateProfile_sends_other_fields healthy_server signed_in "tok"
           rename_with_hobbies eq_refl eq_refl).
Defined.

Lemma rename_keys_distinct : NoDup (map fst rename).
Proof. cbn. constructor; [intros [] | constructor]. Qed.

Lemma updateProfile_omits_missing_hobbies_witness :
  getCookie (document_cookie signed_in) "csrftoken" = Some "tok" /\
  nullish (lookup "hobbies" rename) = true /\
  exists req out rest sent,
    log (snd (updateProfile healthy_server rename signed_in)) =
      (log signed_in ++ Fetched req out :: rest)%list /\
    method req = PUT /\
    body req = Some (JObj sent) /\
    ~ In "hobbies" (map fst sent).
Proof.
  split; [reflexivity|]. split; [reflexivity|].
  exact (updateProfile_omits_missing_hobbies healthy_server signed_in "tok" rename
           eq_refl rename_keys_distinct eq_refl).
Defined.

Lemma addHobby_created_witness :
  getCookie (document_cookie signed_in) "csrftoken" = Some "tok" /\
  (200 <= status (json_ok created) <= 299)%Z /\
  get_prop created "status" = Ok (JStr "success") /\
  fst (addHobby hobby_server "Chess" signed_in) =
    Ok {| success := true; error := None; hobby := Some (Hobby_value chess) |} /\
  hobbies (store (snd (addHobby hobby_server "Chess" signed_in))) = JArr [Hobby_value chess] /\
  userData (store (snd (addHobby hobby_server "Chess" signed_in))) = ann.
Proof.
  split; [reflexivity|]. split; [cbn; lia|]. split; [reflexivity|].
  destruct (addHobby_created hobby_server signed_in "tok" "Chess" (json_ok created) tt
              created (Resolved (json_ok hobby_list)) tt
              eq_refl eq_refl ltac:(cbn; lia) eq_refl eq_refl eq_refl)
    as (h & es & Hh & _ & Hrun & _).
  rewrite Hrun. cbn in Hh. inversion Hh; subst h.
  exact (conj eq_refl (conj eq_refl eq_refl)).
Defined.

Lemma post_refused_witness :
  getCookie (document_cookie signed_in) "csrftoken" = Some "tok" /\
  ok (json_status 400 invalid) = false /\
  fst (addHobby validating_server "Chess" signed_in) =
    Ok (failed (ErrThrown (Error_ (JStr "Failed to add hobby")))) /\
  fst (addExistingHobbyToProfile validating_server 7 signed_in) =
    Ok (failed (ErrThrown (Error_ (JStr "Failed to add hobby to profile")))) /\
  fst (deleteHobbyFromProfile validating_server 7 signed_in) =
    Ok (failed (ErrThrown (Error_ (JStr "Failed to delete hobby from profile")))) /\
  fst (sendFriendRequest validating_server "bob" signed_in) =
    Ok (failed (ErrThrown (Error_ (JStr "Failed to send friend request")))).
Proof.
  split; [reflexivity|]. split; [reflexivity|].
  destruct (post_refused validating_server signed_in "tok" (json_status 400 invalid) tt
              eq_refl eq_refl) as (Ha & Hb & Hc & Hd).
  rewrite (Ha "Chess" eq_refl), (Hb 7%Z eq_refl), (Hc 7%Z eq_refl), (Hd "bob" eq_refl).
  repeat split.
Defined.

Lemma sendFriendRequest_succeeds_iff_ok_witness :
  getCookie (document_cookie signed_in) "csrftoken" = Some "tok" /\
  exists result es,
    sendFriendRequest healthy_server "bob" signed_in =
      (Ok result,
       answered tt
         (Fetched (json_request POST "/api/send_request/" "tok"
                     (JObj [("username", JStr "bob")]))
            (Resolved (json_ok (JObj [("status", JStr "success")]))) :: es) signed_in) /\
    network_calls es = [] /\
    (result = succeeded <->
     exists r, Resolved (json_ok (JObj [("status", JStr "success")])) = Resolved r /\
               ok r = true).
Proof.
  split; [reflexivity|].
  exact (sendFriendRequest_succeeds_iff_ok healthy_server signed_in "tok" "bob"
           (Resolved (json_ok (JObj [("status", JStr "success")]))) tt eq_refl eq_refl).
Defined.

Lemma hobby_link_refetches_witness :
  getCookie (document_cookie signed_in) "csrftoken" = Some "tok" /\
  fst (addExistingHobbyToProfile healthy_server 7 signed_in) = Ok succeeded /\
  userData (store (snd (addExistingHobbyToProfile healthy_server 7 signed_in))) = ann_renamed /\
  fst (deleteHobbyFromProfile healthy_server 7 signed_in) = Ok succeeded /\
  userData (store (snd (deleteHobbyFromProfile healthy_server 7 signed_in))) = ann_renamed.
Proof.
  split; [reflexivity|].
  destruct (hobby_link_refetches healthy_server signed_in "tok"
              (json_ok (JObj [("status", JStr "success")])) tt
              (JObj [("status", JStr "success")]) (Resolved (json_ok ann_renamed)) tt
              eq_refl eq_refl eq_refl eq_refl eq_refl)
    as (es & _ & _ & Ha & Hd).
  rewrite (Ha 7%Z eq_refl), (Hd 7%Z eq_refl). repeat split.
Defined.

Lemma getCookie_result_shape_witness :
  getCookie "sessionid=xyz; csrftoken=tok" "csrftoken" = Some "tok" /\
  "tok" <> EmptyString /\
  no_semicolon "tok" = true /\
  exists before tail,
    cookie_text "sessionid=xyz; csrftoken=tok" = before ++ delimiter "csrftoken" ++ "tok" ++ tail /\
    (tail = EmptyString \/ exists t, tail = String ";" t).
Proof.
  split; [reflexivity|].
  exact (getCookie_result_shape "sessionid=xyz; csrftoken=tok" "csrftoken" "tok" eq_refl).
Defined.

Lemma getCookie_reads_jar_witness :
  jar_ok browser_jar = true /\
  cookie_string browser_jar = "sessionid=xyz; xcsrftoken=no; csrftoken=tok; theme=" /\
  getCookie (cookie_string browser_jar) "csrftoken" = Some "tok" /\
  getCookie (cookie_string browser_jar) "theme" = None /\
  getCookie (cookie_string browser_jar) "token" = None.
Proof.
  split; [reflexivity|]. split; [reflexivity|].
  destruct (getCookie_reads_jar browser_jar eq_refl) as [Hin Hout].
  split; [|split].
  - apply (Hin "csrftoken" "tok"). cbn. auto.
  - apply (Hin "theme" EmptyString). cbn. auto 6.
  - apply Hout; [reflexivity | reflexivity |].
    cbn. intros H. repeat (destruct H as [H|H]; [discriminate|]). exact H.
Defined.
